(** * Hamster: environment detection and adaptive presentation

    A shallow embedding of the decision logic of [hamster-adaptive.py]
    (class [EnvironmentDetector] and the mode, font, preference and status
    code of class [AdaptiveHamsterGUI]) and of the status poll of
    [hamster-gui.py], together with the properties of that logic.

    Conventions.
    - Python [str] values are Rocq [string]s; the host's texts are taken to
      be ASCII, so [lower] only folds the letters A-Z.
    - Python [int] values are [Z].
    - A statement that may raise is a computation in the monad [Py S A]:
      it runs on a mutable store [S] (the dictionary the method is filling
      in) and ends either with [Returned a] or with [Raised e]; the store
      survives a raise, as a Python dictionary does.
    - Everything the code asks of the machine (files, environment
      variables, device nodes, helper programs, the Tk screen) is a field
      of a record describing the host. *)

From Stdlib Require Import String Ascii List ZArith Bool Lia.
From Stdlib Require Import Decimal DecimalString DecimalN DecimalPos DecimalZ.
Import ListNotations.

Local Open Scope string_scope.
Local Open Scope list_scope.
Local Open Scope Z_scope.

(* ===================================================================== *)
(** ** Python strings *)
(* ===================================================================== *)

Module PyStr.

(** [s.startswith(needle)] *)
Fixpoint startswith (s needle : string) : bool :=
  match needle, s with
  | EmptyString, _ => true
  | String _ _, EmptyString => false
  | String a needle', String b s' => Ascii.eqb a b && startswith s' needle'
  end.

(** [needle in s] *)
Fixpoint contains (needle s : string) : bool :=
  startswith s needle ||
  match s with
  | EmptyString => false
  | String _ s' => contains needle s'
  end.

(** [s.split(sep)] for a one-character separator: never the empty list. *)
Fixpoint split (sep : ascii) (s : string) : list string :=
  match s with
  | EmptyString => [EmptyString]
  | String c s' =>
      if Ascii.eqb c sep then EmptyString :: split sep s'
      else match split sep s' with
           | [] => [String c EmptyString]
           | w :: ws => String c w :: ws
           end
  end.

(** [c.isspace()] on ASCII: TAB, LF, VT, FF, CR, FS, GS, RS, US and space. *)
Definition isspace (c : ascii) : bool :=
  let n := nat_of_ascii c in
  ((9 <=? n)%nat && (n <=? 13)%nat) || ((28 <=? n)%nat && (n <=? 32)%nat).

(** Cut at every white-space character (empty pieces included). *)
Fixpoint split_space (s : string) : list string :=
  match s with
  | EmptyString => [EmptyString]
  | String c s' =>
      if isspace c then EmptyString :: split_space s'
      else match split_space s' with
           | [] => [String c EmptyString]
           | w :: ws => String c w :: ws
           end
  end.

Definition nonempty (s : string) : bool :=
  match s with EmptyString => false | String _ _ => true end.

(** [s.split()]: the maximal runs of non-white-space characters. *)
Definition split_ws (s : string) : list string :=
  filter nonempty (split_space s).

Fixpoint lstrip (s : string) : string :=
  match s with
  | EmptyString => EmptyString
  | String c s' => if isspace c then lstrip s' else s
  end.

Fixpoint rstrip (s : string) : string :=
  match s with
  | EmptyString => EmptyString
  | String c s' =>
      match rstrip s' with
      | EmptyString => if isspace c then EmptyString else String c EmptyString
      | r => String c r
      end
  end.

(** [s.strip()] *)
Definition strip (s : string) : string := rstrip (lstrip s).

Definition lower_char (c : ascii) : ascii :=
  let n := nat_of_ascii c in
  if (65 <=? n)%nat && (n <=? 90)%nat then ascii_of_nat (n + 32) else c.

(** [s.lower()] *)
Fixpoint lower (s : string) : string :=
  match s with
  | EmptyString => EmptyString
  | String c s' => String (lower_char c) (lower s')
  end.

Definition digit_of (c : ascii) : option Z :=
  let n := nat_of_ascii c in
  if (48 <=? n)%nat && (n <=? 57)%nat then Some (Z.of_nat (n - 48)) else None.

(** The digits of a decimal literal; one underscore may sit between two
    digits.  [prev_digit] tells whether the previous character was a
    digit. *)
Fixpoint int_digits (s : string) (acc : Z) (prev_digit : bool) : option Z :=
  match s with
  | EmptyString => if prev_digit then Some acc else None
  | String c s' =>
      match digit_of c with
      | Some d => int_digits s' (10 * acc + d) true
      | None =>
          if Ascii.eqb c "_" && prev_digit then int_digits s' acc false
          else None
      end
  end.

(** [int(s)]: [None] stands for [ValueError]. *)
Definition int (s : string) : option Z :=
  match strip s with
  | String "-" r => option_map Z.opp (int_digits r 0 false)
  | String "+" r => int_digits r 0 false
  | t => int_digits t 0 false
  end.

End PyStr.

(* ===================================================================== *)
(** ** Statements that may raise, over a mutable store *)
(* ===================================================================== *)

Module Py.

Inductive exn : Type :=
| FileNotFoundError
| PermissionError
| OSError
| UnicodeDecodeError
| JSONDecodeError
| ValueError
| TypeError
| IndexError
| TclError.

Inductive outcome (A : Type) : Type :=
| Returned (a : A)
| Raised (e : exn).
Arguments Returned {A} a.
Arguments Raised {A} e.

(** A statement over the store [S]. *)
Definition Py (S A : Type) : Type := S -> outcome A * S.

Definition ret {S A} (a : A) : Py S A := fun s => (Returned a, s).

Definition bind {S A B} (m : Py S A) (k : A -> Py S B) : Py S B :=
  fun s =>
    match m s with
    | (Returned a, s') => k a s'
    | (Raised e, s') => (Raised e, s')
    end.

Definition raise {S A} (e : exn) : Py S A := fun s => (Raised e, s).

(** Evaluate an expression whose evaluation may raise. *)
Definition eval {S A} (o : outcome A) : Py S A := fun s => (o, s).

Definition get {S} : Py S S := fun s => (Returned s, s).

(** An assignment into the store. *)
Definition modify {S} (f : S -> S) : Py S unit := fun s => (Returned tt, f s).

(** [try: body  except: handler]  (every [exn] above is an [Exception], so
    [except:] and [except Exception:] catch the same ones). *)
Definition try_except {S A} (body handler : Py S A) : Py S A :=
  fun s =>
    match body s with
    | (Returned a, s') => (Returned a, s')
    | (Raised _, s') => handler s'
    end.

(** [pass] *)
Definition pass {S} : Py S unit := ret tt.

(** Run a method body that builds a fresh dictionary [init] and ends with
    [return] of that dictionary. *)
Definition returning {S} (init : S) (body : Py S unit) : outcome S :=
  match body init with
  | (Returned _, s) => Returned s
  | (Raised e, _) => Raised e
  end.

End Py.

Import Py.

Notation "x <- m ;; k" := (Py.bind m (fun x => k))
  (at level 61, m at next level, right associativity).
Notation "m ;;; k" := (Py.bind m (fun _ => k))
  (at level 61, right associativity).

(** Python's [a or b] on values that may be [None] or an empty string. *)
Definition truthy (v : option string) : bool :=
  match v with
  | Some s => PyStr.nonempty s
  | None => false
  end.

Definition py_or (a b : option string) : option string :=
  if truthy a then a else b.

(* ===================================================================== *)
(** ** The host machine, as the detector sees it *)
(* ===================================================================== *)

(** A Tk root window, as far as the detector asks it. *)
Record TkRoot : Type := {
  winfo_screenwidth : outcome Z;
  winfo_screenheight : outcome Z
}.

Record Host : Type := {
  (** [open('/proc/cpuinfo').read()]: the text, or what [open] raises *)
  proc_cpuinfo : outcome string;
  (** [os.environ.get('DESKTOP_SESSION')] *)
  env_DESKTOP_SESSION : option string;
  (** [os.environ.get('XDG_CURRENT_DESKTOP')] *)
  env_XDG_CURRENT_DESKTOP : option string;
  (** [open('/proc/device-tree/model').read()] *)
  proc_device_tree_model : outcome string;
  (** [os.path.exists('/run/systemd/system')] *)
  run_systemd_system : bool;
  (** [glob.glob('/dev/input/event*')] *)
  dev_input_event : list string;
  (** standard output of [udevadm info --query=property --name=<device>] *)
  udevadm_info : string -> outcome string;
  (** [glob.glob('/dev/input/mouse*')] *)
  dev_input_mouse : list string;
  (** [glob.glob('/dev/input/js*')] *)
  dev_input_js : list string;
  (** standard output of [xrandr] *)
  xrandr : outcome string;
  (** [tk.Tk()] *)
  tk_Tk : outcome TkRoot
}.

(** A text file opened for reading: what has not been read yet. *)
Record TextFile : Type := { unread : string }.

Definition open_ (content : outcome string) : outcome TextFile :=
  match content with
  | Returned c => Returned {| unread := c |}
  | Raised e => Raised e
  end.

(** [f.read()]: everything that is left; the file is then at its end. *)
Definition read (f : TextFile) : string * TextFile :=
  (unread f, {| unread := EmptyString |}).

(* ===================================================================== *)
(** ** class EnvironmentDetector *)
(* ===================================================================== *)

Module EnvironmentDetector.

(** The values taken by [env['type']]. *)
Inductive env_type : Type :=
| unknown
| raspberry_pi
| desktop
| gaming_console
| minimal_linux.

Definition env_type_eqb (a b : env_type) : bool :=
  match a, b with
  | unknown, unknown
  | raspberry_pi, raspberry_pi
  | desktop, desktop
  | gaming_console, gaming_console
  | minimal_linux, minimal_linux => true
  | _, _ => false
  end.

(** The dictionary [env] of [detect_environment]. *)
Record Environment : Type := {
  type : env_type;
  is_pi : bool;
  is_desktop : bool;
  is_console : bool;
  has_systemd : bool;
  desktop_environment : option string
}.

Definition set_type (v : env_type) (e : Environment) : Environment :=
  {| type := v; is_pi := is_pi e; is_desktop := is_desktop e;
     is_console := is_console e; has_systemd := has_systemd e;
     desktop_environment := desktop_environment e |}.

Definition set_is_pi (v : bool) (e : Environment) : Environment :=
  {| type := type e; is_pi := v; is_desktop := is_desktop e;
     is_console := is_console e; has_systemd := has_systemd e;
     desktop_environment := desktop_environment e |}.

Definition set_is_desktop (v : bool) (e : Environment) : Environment :=
  {| type := type e; is_pi := is_pi e; is_desktop := v;
     is_console := is_console e; has_systemd := has_systemd e;
     desktop_environment := desktop_environment e |}.

Definition set_is_console (v : bool) (e : Environment) : Environment :=
  {| type := type e; is_pi := is_pi e; is_desktop := is_desktop e;
     is_console := v; has_systemd := has_systemd e;
     desktop_environment := desktop_environment e |}.

Definition set_has_systemd (v : bool) (e : Environment) : Environment :=
  {| type := type e; is_pi := is_pi e; is_desktop := is_desktop e;
     is_console := is_console e; has_systemd := v;
     desktop_environment := desktop_environment e |}.

Definition set_desktop_environment (v : option string) (e : Environment)
  : Environment :=
  {| type := type e; is_pi := is_pi e; is_desktop := is_desktop e;
     is_console := is_console e; has_systemd := has_systemd e;
     desktop_environment := v |}.

Definition env_init : Environment :=
  {| type := unknown; is_pi := false; is_desktop := false;
     is_console := false; has_systemd := false;
     desktop_environment := None |}.

(** ['BCM' in f.read() or 'Raspberry' in f.read()]: the right operand is
    evaluated only when the left one is false, on the same file object. *)
Definition cpuinfo_test (f : TextFile) : bool * TextFile :=
  let '(s1, f1) := read f in
  if PyStr.contains "BCM" s1 then (true, f1)
  else
    let '(s2, f2) := read f1 in
    (PyStr.contains "Raspberry" s2, f2).

(** Lines 42-49. *)
Definition check_raspberry_pi (h : Host) : Py Environment unit :=
  try_except
    (f <- eval (open_ (proc_cpuinfo h)) ;;
     if fst (cpuinfo_test f) then
       modify (set_is_pi true) ;;;
       modify (set_type raspberry_pi)
     else pass)
    pass.

(** Lines 51-57. *)
Definition check_desktop_environment (h : Host) : Py Environment unit :=
  let desktop_env := py_or (env_DESKTOP_SESSION h) (env_XDG_CURRENT_DESKTOP h) in
  if truthy desktop_env then
    modify (set_is_desktop true) ;;;
    modify (set_desktop_environment (option_map PyStr.lower desktop_env)) ;;;
    env <- get ;;
    if env_type_eqb (type env) unknown then modify (set_type desktop)
    else pass
  else pass.

Definition console_markers : list string :=
  ["rg"; "anbernic"; "powkiddy"; "retroid"].

(** Lines 59-67. *)
Definition check_gaming_console (h : Host) : Py Environment unit :=
  try_except
    (f <- eval (open_ (proc_device_tree_model h)) ;;
     let model := PyStr.lower (fst (read f)) in
     if existsb (fun console => PyStr.contains console model) console_markers
     then
       modify (set_is_console true) ;;;
       modify (set_type gaming_console)
     else pass)
    pass.

(** Lines 72-79. *)
Definition default_type : Py Environment unit :=
  env <- get ;;
  if env_type_eqb (type env) unknown then
    if is_desktop env then modify (set_type desktop)
    else if is_pi env then modify (set_type raspberry_pi)
    else modify (set_type minimal_linux)
  else pass.

Definition detect_environment (h : Host) : outcome Environment :=
  returning env_init
    (check_raspberry_pi h ;;;
     check_desktop_environment h ;;;
     check_gaming_console h ;;;
     modify (set_has_systemd (run_systemd_system h)) ;;;
     default_type).

(** The dictionary [methods] of [detect_input_methods]. *)
Record InputMethods : Type := {
  keyboard : bool;
  mouse : bool;
  touchscreen : bool;
  gamepad : bool;
  joystick_devices : list string
}.

Definition set_mouse (v : bool) (m : InputMethods) : InputMethods :=
  {| keyboard := keyboard m; mouse := v; touchscreen := touchscreen m;
     gamepad := gamepad m; joystick_devices := joystick_devices m |}.

Definition set_touchscreen (v : bool) (m : InputMethods) : InputMethods :=
  {| keyboard := keyboard m; mouse := mouse m; touchscreen := v;
     gamepad := gamepad m; joystick_devices := joystick_devices m |}.

Definition set_gamepad (v : bool) (m : InputMethods) : InputMethods :=
  {| keyboard := keyboard m; mouse := mouse m; touchscreen := touchscreen m;
     gamepad := v; joystick_devices := joystick_devices m |}.

Definition set_joystick_devices (v : list string) (m : InputMethods)
  : InputMethods :=
  {| keyboard := keyboard m; mouse := mouse m; touchscreen := touchscreen m;
     gamepad := gamepad m; joystick_devices := v |}.

Definition methods_init : InputMethods :=
  {| keyboard := true; mouse := false; touchscreen := false;
     gamepad := false; joystick_devices := [] |}.

(** What one turn of the loop over the event devices decides. *)
Inductive loop_step : Type := Break | Continue.

(** Lines 96-105: the loop stops at the first device whose properties hold
    [ID_INPUT_TOUCHSCREEN=1]; a device whose query raises is skipped. *)
Fixpoint scan_touch_devices (h : Host) (devices : list string)
  : Py InputMethods unit :=
  match devices with
  | [] => pass
  | device :: rest =>
      step <- try_except
                (stdout <- eval (udevadm_info h device) ;;
                 if PyStr.contains "ID_INPUT_TOUCHSCREEN=1" stdout then
                   modify (set_touchscreen true) ;;; ret Break
                 else ret Continue)
                (ret Continue) ;;
      match step with
      | Break => pass
      | Continue => scan_touch_devices h rest
      end
  end.

Definition detect_input_methods (h : Host) : outcome InputMethods :=
  returning methods_init
    (try_except (scan_touch_devices h (dev_input_event h)) pass ;;;
     modify (set_mouse (0 <? Z.of_nat (length (dev_input_mouse h)))) ;;;
     let joysticks := dev_input_js h in
     modify (set_gamepad (0 <? Z.of_nat (length joysticks))) ;;;
     modify (set_joystick_devices joysticks)).

(** The dictionary [info] of [detect_screen_info]. *)
Record ScreenInfo : Type := {
  width : Z;
  height : Z;
  dpi : Z;
  is_small_screen : bool;
  is_touch_optimized : bool
}.

Definition set_width (v : Z) (i : ScreenInfo) : ScreenInfo :=
  {| width := v; height := height i; dpi := dpi i;
     is_small_screen := is_small_screen i;
     is_touch_optimized := is_touch_optimized i |}.

Definition set_height (v : Z) (i : ScreenInfo) : ScreenInfo :=
  {| width := width i; height := v; dpi := dpi i;
     is_small_screen := is_small_screen i;
     is_touch_optimized := is_touch_optimized i |}.

Definition set_is_small_screen (v : bool) (i : ScreenInfo) : ScreenInfo :=
  {| width := width i; height := height i; dpi := dpi i;
     is_small_screen := v;
     is_touch_optimized := is_touch_optimized i |}.

Definition set_is_touch_optimized (v : bool) (i : ScreenInfo) : ScreenInfo :=
  {| width := width i; height := height i; dpi := dpi i;
     is_small_screen := is_small_screen i;
     is_touch_optimized := v |}.

Definition info_init : ScreenInfo :=
  {| width := 1024; height := 768; dpi := 96;
     is_small_screen := false; is_touch_optimized := false |}.

(** [width, height = map(int, resolution.split('x'))]: exactly two pieces,
    each a decimal literal; anything else is a [ValueError]. *)
Definition unpack_resolution (resolution : string) : outcome (Z * Z) :=
  match map PyStr.int (PyStr.split "x" resolution) with
  | [Some w; Some h] => Returned (w, h)
  | _ => Raised ValueError
  end.

(** Lines 135-142: the loop over the words of the chosen line. *)
Fixpoint scan_parts (parts : list string) : Py ScreenInfo unit :=
  match parts with
  | [] => pass
  | part :: rest =>
      if PyStr.contains "x" part && PyStr.contains "+" part then
        let resolution := hd EmptyString (PyStr.split "+" part) in
        if PyStr.contains "x" resolution then
          wh <- eval (unpack_resolution resolution) ;;
          modify (set_width (fst wh)) ;;;
          modify (set_height (snd wh))
        else scan_parts rest
      else scan_parts rest
  end.

(** Lines 132-143: the loop over the lines of the output; it ends at the
    first line that passes the test, whatever that line held. *)
Fixpoint scan_lines (lines : list string) : Py ScreenInfo unit :=
  match lines with
  | [] => pass
  | line :: rest =>
      if PyStr.contains " connected primary" line
         || PyStr.contains " connected " line
      then scan_parts (PyStr.split_ws line)
      else scan_lines rest
  end.

(** Lines 129-152.  ([root.destroy()] comes after both assignments and
    does not touch [info].) *)
Definition query_resolution (h : Host) : Py ScreenInfo unit :=
  try_except
    (stdout <- eval (xrandr h) ;;
     scan_lines (PyStr.split "010" stdout))
    (try_except
       (root <- eval (tk_Tk h) ;;
        w <- eval (winfo_screenwidth root) ;;
        modify (set_width w) ;;;
        ht <- eval (winfo_screenheight root) ;;
        modify (set_height ht))
       pass).

(** Lines 119-161; [and] and [or] are applied to [bool] operands here. *)
Definition detect_screen_info (h : Host) (environment : Environment)
  (input_methods : InputMethods) : outcome ScreenInfo :=
  returning info_init
    (query_resolution h ;;;
     info <- get ;;
     modify (set_is_small_screen
               ((width info <=? 800) || (height info <=? 480))) ;;;
     info <- get ;;
     modify (set_is_touch_optimized
               ((touchscreen input_methods && is_small_screen info)
                || is_pi environment))).

(** The object built by [EnvironmentDetector()]. *)
Record Detector : Type := {
  environment : Environment;
  input_methods : InputMethods;
  screen_info : ScreenInfo
}.

(** [__init__]: the three detections in their order; a raise of any of
    them would leave the constructor. *)
Definition init (h : Host) : outcome Detector :=
  match detect_environment h with
  | Raised e => Raised e
  | Returned env =>
      match detect_input_methods h with
      | Raised e => Raised e
      | Returned methods =>
          match detect_screen_info h env methods with
          | Raised e => Raised e
          | Returned info =>
              Returned {| environment := env; input_methods := methods;
                          screen_info := info |}
          end
      end
  end.

End EnvironmentDetector.

(* ===================================================================== *)
(** ** Python values read from and written to JSON *)
(* ===================================================================== *)

#[local] Set Warnings "-register-all".

(** What [json.load] returns.  A [dict] keeps its items in insertion
    order, each key once; a float is kept as its literal. *)
Inductive pyval : Type :=
| PNone
| PBool (b : bool)
| PInt (z : Z)
| PFloat (literal : string)
| PStr (s : string)
| PList (l : list pyval)
| PDict (items : list (string * pyval)).

Module PyDict.

Definition dict : Type := list (string * pyval).

(** [d.get(key)] *)
Fixpoint get (key : string) (d : dict) : option pyval :=
  match d with
  | [] => None
  | (k, v) :: rest => if String.eqb k key then Some v else get key rest
  end.

(** [key in d] *)
Definition has (key : string) (d : dict) : bool :=
  match get key d with Some _ => true | None => false end.

(** [d[key] = value]: a present key keeps its place, a new one goes last. *)
Fixpoint set (key : string) (value : pyval) (d : dict) : dict :=
  match d with
  | [] => [(key, value)]
  | (k, v) :: rest =>
      if String.eqb k key then (k, value) :: rest
      else (k, v) :: set key value rest
  end.

End PyDict.

Definition is_str (key : string) (v : pyval) : bool :=
  match v with PStr s => String.eqb s key | _ => false end.

(** [key in config] for a string [key]. *)
Definition py_in (key : string) (config : pyval) : outcome bool :=
  match config with
  | PDict d => Returned (PyDict.has key d)
  | PList l => Returned (existsb (is_str key) l)
  | PStr s => Returned (PyStr.contains key s)
  | _ => Raised TypeError
  end.

(** [config[key] = value] for a string [key]. *)
Definition py_setitem (key : string) (value : pyval) (config : pyval)
  : outcome pyval :=
  match config with
  | PDict d => Returned (PDict (PyDict.set key value d))
  | _ => Raised TypeError
  end.

(* ===================================================================== *)
(** ** class AdaptiveHamsterGUI *)
(* ===================================================================== *)

Module Mode.
(** The values taken by [self.window_mode]. *)
Inductive t : Type :=
| fullscreen_console
| touchscreen
| desktop
| minimal.
End Mode.

Module AdaptiveHamsterGUI.

Import EnvironmentDetector.

(** *** Preferences: [load_config], [save_config] *)

(** The preference file and its directory. *)
Record ConfigFS : Type := {
  (** [os.makedirs(dirname, exist_ok=True)] *)
  makedirs : outcome unit;
  (** [None]: no such file; [Some o]: it exists and [json.load] gives [o] *)
  config_file : option (outcome pyval);
  (** [open(config_file, 'w')] *)
  open_for_writing : outcome unit
}.

Definition set_config_file (v : option (outcome pyval)) (fs : ConfigFS)
  : ConfigFS :=
  {| makedirs := makedirs fs; config_file := v;
     open_for_writing := open_for_writing fs |}.

Definition default_station : PyDict.dict :=
  [("callsign", PStr "N0CALL");
   ("grid_square", PStr "FN42xx");
   ("qth", PStr "Home Station");
   ("operator", PStr "Ham Operator")].

Definition default_ui : PyDict.dict :=
  [("theme", PStr "auto");
   ("font_size", PStr "auto");
   ("touch_mode", PStr "auto")].

Definition default_config : PyDict.dict :=
  [("station", PDict default_station); ("ui", PDict default_ui)].

(** [with open(config_file, 'w') as f: json.dump(value, f, indent=2)]:
    what is dumped is what a later [json.load] gives back. *)
Definition dump (value : pyval) : Py ConfigFS unit :=
  fs <- get ;;
  eval (open_for_writing fs) ;;;
  modify (set_config_file (Some (Returned value))).

(** Lines 202-204: [for key in default_config: if key not in config:
    config[key] = default_config[key]]. *)
Fixpoint merge_defaults (defaults : PyDict.dict) (config : pyval)
  : Py ConfigFS pyval :=
  match defaults with
  | [] => ret config
  | (key, value) :: rest =>
      present <- eval (py_in key config) ;;
      if negb present then
        config' <- eval (py_setitem key value config) ;;
        merge_defaults rest config'
      else merge_defaults rest config
  end.

(** Lines 179-211. *)
Definition load_config : Py ConfigFS pyval :=
  try_except
    (fs <- get ;;
     eval (makedirs fs) ;;;
     match config_file fs with
     | Some content =>
         config <- eval content ;;
         merge_defaults default_config config
     | None =>
         dump (PDict default_config) ;;;
         ret (PDict default_config)
     end)
    (ret (PDict default_config)).

(** Lines 213-220. *)
Definition save_config (config : pyval) : Py ConfigFS unit :=
  try_except (dump config) pass.

(** *** Window mode: [setup_window] *)

(** What [setup_window] sets on the Tk root and on [self]. *)
Record Window : Type := {
  geometry : Z * Z;
  fullscreen : bool;
  centered : bool;
  minsize : option (Z * Z);
  window_mode : Mode.t
}.

(** Lines 222-256. *)
Definition setup_window (detector : Detector) : Window :=
  let env := environment detector in
  let screen := screen_info detector in
  if env_type_eqb (type env) gaming_console then
    {| geometry := (800, 480); fullscreen := true; centered := false;
       minsize := None; window_mode := Mode.fullscreen_console |}
  else if env_type_eqb (type env) raspberry_pi && is_touch_optimized screen
  then
    if is_small_screen screen then
      {| geometry := (width screen, height screen); fullscreen := true;
         centered := false; minsize := None;
         window_mode := Mode.touchscreen |}
    else
      {| geometry := (800, 600); fullscreen := false; centered := true;
         minsize := None; window_mode := Mode.touchscreen |}
  else if env_type_eqb (type env) desktop then
    {| geometry := (1000, 700); fullscreen := false; centered := true;
       minsize := Some (800, 600); window_mode := Mode.desktop |}
  else
    {| geometry := (800, 600); fullscreen := false; centered := true;
       minsize := None; window_mode := Mode.minimal |}.

(** *** Font size: [get_font_size], lines 316-323 *)

Definition get_font_size (detector : Detector) (base_size : Z) : Z :=
  if is_touch_optimized (screen_info detector) then base_size + 4
  else if is_small_screen (screen_info detector) then base_size + 2
  else base_size.

(** *** Status poll: [check_system_status] *)

(** The helper programs the poll runs. *)
Record StatusHost : Type := {
  (** standard output of [systemctl is-active <service>] *)
  systemctl_is_active : string -> outcome string;
  (** standard output of [hostname -I] *)
  hostname_I : outcome string;
  (** return code of [which <app>] *)
  which : string -> outcome Z
}.

(** The store of [update_status]: its local dictionary, the calls it made
    to [update_status_display], and the lines it printed. *)
Record Poll : Type := {
  status_info : PyDict.dict;
  displayed : list PyDict.dict;
  printed : list exn
}.

Definition poll_init : Poll :=
  {| status_info := []; displayed := []; printed := [] |}.

Definition set_status (key : string) (value : pyval) (p : Poll) : Poll :=
  {| status_info := PyDict.set key value (status_info p);
     displayed := displayed p; printed := printed p |}.

Definition update_status_display (p : Poll) : Poll :=
  {| status_info := status_info p;
     displayed := displayed p ++ [status_info p];
     printed := printed p |}.

Definition print_error (e : exn) (p : Poll) : Poll :=
  {| status_info := status_info p; displayed := displayed p;
     printed := printed p ++ [e] |}.

(** Lines 738-741. *)
Fixpoint check_services (q : StatusHost) (services : list string)
  : Py Poll unit :=
  match services with
  | [] => pass
  | service :: rest =>
      stdout <- eval (systemctl_is_active q service) ;;
      modify (set_status service
                (PBool (String.eqb (PyStr.strip stdout) "active"))) ;;;
      check_services q rest
  end.

(** [xs[0]] *)
Definition first (xs : list string) : outcome string :=
  match xs with
  | [] => Raised IndexError
  | x :: _ => Returned x
  end.

Definition pyval_of_ip (ip : option string) : pyval :=
  match ip with Some s => PStr s | None => PNone end.

(** Lines 744-751. *)
Definition check_network (q : StatusHost) : Py Poll unit :=
  try_except
    (stdout <- eval (hostname_I q) ;;
     ip <- (if PyStr.nonempty (PyStr.strip stdout)
            then a <- eval (first (PyStr.split_ws (PyStr.strip stdout))) ;;
                 ret (Some a)
            else ret None) ;;
     modify (set_status "network" (PBool (truthy ip))) ;;;
     modify (set_status "ip" (pyval_of_ip ip)))
    (modify (set_status "network" (PBool false)) ;;;
     modify (set_status "ip" PNone)).

(** Lines 754-756. *)
Fixpoint check_applications (q : StatusHost) (apps : list string)
  : Py Poll unit :=
  match apps with
  | [] => pass
  | app :: rest =>
      returncode <- eval (which q app) ;;
      modify (set_status app (PBool (returncode =? 0))) ;;;
      check_applications q rest
  end.

(** [try: body  except Exception as e: print(...)] *)
Definition try_print (body : Py Poll unit) : Py Poll unit :=
  fun p =>
    match body p with
    | (Returned a, p') => (Returned a, p')
    | (Raised e, p') => (Returned tt, print_error e p')
    end.

(** Lines 733-762: the body of the background thread. *)
Definition update_status (q : StatusHost) : Py Poll unit :=
  try_print
    (check_services q ["ssh"; "bluetooth"] ;;;
     check_network q ;;;
     check_applications q ["direwolf"; "qsstv"] ;;;
     modify update_status_display).

(** One poll cycle, from an empty dictionary. *)
Definition check_system_status (q : StatusHost) : Poll :=
  snd (update_status q poll_init).

End AdaptiveHamsterGUI.

(* ===================================================================== *)
(** ** class HamsterGUI (hamster-gui.py): the status poll *)
(* ===================================================================== *)

Module HamsterGUI.

(** The helper programs and paths this poll asks. *)
Record StatusHost : Type := {
  systemctl_is_active : string -> outcome string;
  hostname_I : outcome string;
  dev_input_js0 : bool;
  which : string -> outcome Z;
  (** the text [update_system_info] computes, or what it raises *)
  system_info : outcome string
}.

(** The store: the texts of [self.status_labels] and of [self.info_label]. *)
Record Labels : Type := {
  status_labels : list (string * string);
  info_label : string;
  printed : list exn
}.

Definition labels_init : Labels :=
  {| status_labels :=
       [("ssh", "Checking..."); ("bluetooth", "Checking...");
        ("network", "Checking..."); ("controller", "Checking...");
        ("direwolf", "Checking..."); ("qsstv", "Checking...")];
     info_label := "Loading system information...";
     printed := [] |}.

Fixpoint get_label (key : string) (ls : list (string * string))
  : option string :=
  match ls with
  | [] => None
  | (k, v) :: rest => if String.eqb k key then Some v else get_label key rest
  end.

Fixpoint config_label (key text : string) (ls : list (string * string))
  : list (string * string) :=
  match ls with
  | [] => []
  | (k, v) :: rest =>
      if String.eqb k key then (k, text) :: rest
      else (k, v) :: config_label key text rest
  end.

(** Lines 283-289: only a key of [status_labels] has its text changed. *)
Definition update_status_label (key status : string) : Py Labels unit :=
  modify (fun l =>
    {| status_labels := config_label key status (status_labels l);
       info_label := info_label l; printed := printed l |}).

Definition set_info_label (text : string) : Py Labels unit :=
  modify (fun l =>
    {| status_labels := status_labels l; info_label := text;
       printed := printed l |}).

(** [xs[0]] *)
Definition first (xs : list string) : outcome string :=
  match xs with
  | [] => Raised IndexError
  | x :: _ => Returned x
  end.

(** Lines 291-306. *)
Definition update_system_info (q : StatusHost) : Py Labels unit :=
  try_except
    (text <- eval (system_info q) ;; set_info_label text)
    (set_info_label "System info unavailable").

(** Lines 241-278: the body of the background thread. *)
Definition update_status (q : StatusHost) : Py Labels unit :=
  fun l =>
    match
      (ssh_status <- eval (systemctl_is_active q "ssh") ;;
       update_status_label "ssh"
         (if String.eqb (PyStr.strip ssh_status) "active"
          then "Active" else "Inactive") ;;;
       bt_status <- eval (systemctl_is_active q "bluetooth") ;;
       update_status_label "bluetooth"
         (if String.eqb (PyStr.strip bt_status) "active"
          then "Active" else "Inactive") ;;;
       try_except
         (stdout <- eval (hostname_I q) ;;
          ip <- eval (first (PyStr.split_ws (PyStr.strip stdout))) ;;
          update_status_label "network" ("Connected (" ++ ip ++ ")"))
         (update_status_label "network" "Disconnected") ;;;
       update_status_label "controller"
         (if dev_input_js0 q then "Detected" else "Not Found") ;;;
       rc <- eval (which q "direwolf") ;;
       update_status_label "direwolf"
         (if rc =? 0 then "Installed" else "Not Installed") ;;;
       rc <- eval (which q "qsstv") ;;
       update_status_label "qsstv"
         (if rc =? 0 then "Installed" else "Not Installed") ;;;
       update_system_info q) l
    with
    | (Returned a, l') => (Returned a, l')
    | (Raised e, l') =>
        (Returned tt,
         {| status_labels := status_labels l'; info_label := info_label l';
            printed := printed l' ++ [e] |})
    end.

Definition check_system_status (q : StatusHost) : Labels :=
  snd (update_status q labels_init).

End HamsterGUI.

(* ===================================================================== *)
(** ** Vocabulary of the properties *)
(* ===================================================================== *)

Import EnvironmentDetector.

(** *** The three signals of machine-class detection, read off the host *)

(** The CPU identification file could be read and holds [BCM]. *)
Definition sbc_signal (h : Host) : bool :=
  match proc_cpuinfo h with
  | Returned content => PyStr.contains "BCM" content
  | Raised _ => false
  end.

(** One of the two desktop-session variables holds a non-empty value. *)
Definition desktop_variable (h : Host) : option string :=
  py_or (env_DESKTOP_SESSION h) (env_XDG_CURRENT_DESKTOP h).

Definition desktop_signal (h : Host) : bool := truthy (desktop_variable h).

(** The device-model file could be read and names a handheld vendor. *)
Definition handheld_signal (h : Host) : bool :=
  match proc_device_tree_model h with
  | Returned content =>
      existsb (fun console => PyStr.contains console (PyStr.lower content))
              console_markers
  | Raised _ => false
  end.

(** The machine class by the precedence the code applies. *)
Definition resolved_type (h : Host) : env_type :=
  if handheld_signal h then gaming_console
  else if sbc_signal h then raspberry_pi
  else if desktop_signal h then desktop
  else minimal_linux.

(** Some event device answers the property query with the touchscreen flag
    set; devices whose query raises are passed over. *)
Definition touch_signal (h : Host) : bool :=
  existsb (fun device =>
             match udevadm_info h device with
             | Returned stdout => PyStr.contains "ID_INPUT_TOUCHSCREEN=1" stdout
             | Raised _ => false
             end)
          (dev_input_event h).

(** *** What the display-server text yields, stated without the loops *)

Inductive reading : Type :=
| Found (wh : Z * Z)    (* a resolution was read *)
| NoMatch               (* the text was scanned to its end, nothing set *)
| Failed.               (* the scan raised *)

(** The text of a word up to its first [+]. *)
Definition before_plus (part : string) : string :=
  hd EmptyString (PyStr.split "+" part).

Definition is_geometry (part : string) : bool :=
  PyStr.contains "x" part && PyStr.contains "+" part
  && PyStr.contains "x" (before_plus part).

Definition is_connected (line : string) : bool :=
  PyStr.contains " connected " line.

(** The first line holding [ connected ] decides; on it the first word
    shaped like a geometry decides. *)
Definition read_xrandr (stdout : string) : reading :=
  match find is_connected (PyStr.split "010" stdout) with
  | None => NoMatch
  | Some line =>
      match find is_geometry (PyStr.split_ws line) with
      | None => NoMatch
      | Some part =>
          match unpack_resolution (before_plus part) with
          | Returned wh => Found wh
          | Raised _ => Failed
          end
      end
  end.

(** What the toolkit stage leaves: the defaults when no root window can
    be made or its width cannot be asked; the reported width, with the
    default height, when only the height cannot be asked. *)
Definition toolkit_size (h : Host) : Z * Z :=
  match tk_Tk h with
  | Raised _ => (1024, 768)
  | Returned root =>
      match winfo_screenwidth root with
      | Raised _ => (1024, 768)
      | Returned w =>
          (w, match winfo_screenheight root with
              | Returned ht => ht
              | Raised _ => 768
              end)
      end
  end.

(** The detected size: the display server's when it was read; the
    toolkit stage's when running or reading the display server raised;
    1024x768 when the text held no geometry. *)
Definition display_size (h : Host) : Z * Z :=
  match xrandr h with
  | Raised _ => toolkit_size h
  | Returned stdout =>
      match read_xrandr stdout with
      | Found wh => wh
      | NoMatch => (1024, 768)
      | Failed => toolkit_size h
      end
  end.

(** *** Preferences: the merge, stated on the dictionary *)

(** The value the merged dictionary holds under [key]. *)
Definition merged_lookup (d : PyDict.dict) (key : string) : option pyval :=
  match PyDict.get key d with
  | Some v => Some v
  | None => PyDict.get key AdaptiveHamsterGUI.default_config
  end.

(** *** Hosts used as examples *)

Definition nl : string := String "010" EmptyString.

(** Nothing answers: no file, no variable, no device, no program. *)
Definition bare_host : Host :=
  {| proc_cpuinfo := Raised FileNotFoundError;
     env_DESKTOP_SESSION := None;
     env_XDG_CURRENT_DESKTOP := None;
     proc_device_tree_model := Raised FileNotFoundError;
     run_systemd_system := false;
     dev_input_event := [];
     udevadm_info := fun _ => Raised FileNotFoundError;
     dev_input_mouse := [];
     dev_input_js := [];
     xrandr := Raised FileNotFoundError;
     tk_Tk := Raised TclError |}.

Definition with_cpuinfo (content : string) (h : Host) : Host :=
  {| proc_cpuinfo := Returned content;
     env_DESKTOP_SESSION := env_DESKTOP_SESSION h;
     env_XDG_CURRENT_DESKTOP := env_XDG_CURRENT_DESKTOP h;
     proc_device_tree_model := proc_device_tree_model h;
     run_systemd_system := run_systemd_system h;
     dev_input_event := dev_input_event h;
     udevadm_info := udevadm_info h;
     dev_input_mouse := dev_input_mouse h;
     dev_input_js := dev_input_js h;
     xrandr := xrandr h;
     tk_Tk := tk_Tk h |}.

Definition with_desktop_session (value : string) (h : Host) : Host :=
  {| proc_cpuinfo := proc_cpuinfo h;
     env_DESKTOP_SESSION := Some value;
     env_XDG_CURRENT_DESKTOP := env_XDG_CURRENT_DESKTOP h;
     proc_device_tree_model := proc_device_tree_model h;
     run_systemd_system := run_systemd_system h;
     dev_input_event := dev_input_event h;
     udevadm_info := udevadm_info h;
     dev_input_mouse := dev_input_mouse h;
     dev_input_js := dev_input_js h;
     xrandr := xrandr h;
     tk_Tk := tk_Tk h |}.

Definition with_model (content : string) (h : Host) : Host :=
  {| proc_cpuinfo := proc_cpuinfo h;
     env_DESKTOP_SESSION := env_DESKTOP_SESSION h;
     env_XDG_CURRENT_DESKTOP := env_XDG_CURRENT_DESKTOP h;
     proc_device_tree_model := Returned content;
     run_systemd_system := run_systemd_system h;
     dev_input_event := dev_input_event h;
     udevadm_info := udevadm_info h;
     dev_input_mouse := dev_input_mouse h;
     dev_input_js := dev_input_js h;
     xrandr := xrandr h;
     tk_Tk := tk_Tk h |}.

Definition with_xrandr (stdout : outcome string) (h : Host) : Host :=
  {| proc_cpuinfo := proc_cpuinfo h;
     env_DESKTOP_SESSION := env_DESKTOP_SESSION h;
     env_XDG_CURRENT_DESKTOP := env_XDG_CURRENT_DESKTOP h;
     proc_device_tree_model := proc_device_tree_model h;
     run_systemd_system := run_systemd_system h;
     dev_input_event := dev_input_event h;
     udevadm_info := udevadm_info h;
     dev_input_mouse := dev_input_mouse h;
     dev_input_js := dev_input_js h;
     xrandr := stdout;
     tk_Tk := tk_Tk h |}.

Definition with_tk_screen (wh : Z * Z) (h : Host) : Host :=
  {| proc_cpuinfo := proc_cpuinfo h;
     env_DESKTOP_SESSION := env_DESKTOP_SESSION h;
     env_XDG_CURRENT_DESKTOP := env_XDG_CURRENT_DESKTOP h;
     proc_device_tree_model := proc_device_tree_model h;
     run_systemd_system := run_systemd_system h;
     dev_input_event := dev_input_event h;
     udevadm_info := udevadm_info h;
     dev_input_mouse := dev_input_mouse h;
     dev_input_js := dev_input_js h;
     xrandr := xrandr h;
     tk_Tk := Returned {| winfo_screenwidth := Returned (fst wh);
                          winfo_screenheight := Returned (snd wh) |} |}.

Definition with_touch_device (device stdout : string) (h : Host) : Host :=
  {| proc_cpuinfo := proc_cpuinfo h;
     env_DESKTOP_SESSION := env_DESKTOP_SESSION h;
     env_XDG_CURRENT_DESKTOP := env_XDG_CURRENT_DESKTOP h;
     proc_device_tree_model := proc_device_tree_model h;
     run_systemd_system := run_systemd_system h;
     dev_input_event := dev_input_event h ++ [device];
     udevadm_info := fun d => if String.eqb d device then Returned stdout
                              else udevadm_info h d;
     dev_input_mouse := dev_input_mouse h;
     dev_input_js := dev_input_js h;
     xrandr := xrandr h;
     tk_Tk := tk_Tk h |}.

(** A Raspberry Pi board running a desktop session. *)
Definition pi_desktop_host : Host :=
  with_desktop_session "LXDE-pi"
    (with_cpuinfo "Hardware : BCM2835" bare_host).

(** A handheld built on a Broadcom board, with a desktop session. *)
Definition handheld_pi_host : Host :=
  with_model "Anbernic RG353" pi_desktop_host.

(** A CPU identification text that says Raspberry but not BCM. *)
Definition raspberry_text_host : Host :=
  with_cpuinfo "Model : Raspberry Pi 4 Model B Rev 1.4" bare_host.

(** The display server answers with one connected output of the given
    size. *)
Definition one_output (size : string) : string :=
  "Screen 0: minimum 320 x 200, current 1920 x 1080, maximum 8192 x 8192"
  ++ nl ++ "HDMI-1 connected primary " ++ size
  ++ "+0+0 (normal left inverted right x axis y axis) 527mm x 296mm"
  ++ nl ++ "   1920x1080     60.00*+".

(** Two outputs, the primary one listed second. *)
Definition two_outputs : string :=
  "Screen 0: minimum 320 x 200, current 3286 x 1080, maximum 8192 x 8192"
  ++ nl ++ "eDP-1 connected 1366x768+0+0 (normal left inverted right) 309mm x 173mm"
  ++ nl ++ "HDMI-1 connected primary 1920x1080+1366+0 (normal left inverted right) 527mm x 296mm".

(** The display server ran and printed nothing; the toolkit knows the
    screen. *)
Definition silent_xrandr_host : Host :=
  with_tk_screen (1920, 1080) (with_xrandr (Returned EmptyString) bare_host).

Definition two_outputs_host : Host :=
  with_xrandr (Returned two_outputs) bare_host.

(** The display server is missing; the toolkit knows the screen. *)
Definition tk_only_host (wh : Z * Z) : Host := with_tk_screen wh bare_host.

(** *** Preference files used as examples *)

Definition station_only : PyDict.dict :=
  [("station", PDict [("callsign", PStr "K1ABC");
                      ("grid_square", PStr "FN31pr");
                      ("qth", PStr "Hartford");
                      ("operator", PStr "Pat")])].

Definition fs_missing : AdaptiveHamsterGUI.ConfigFS :=
  {| AdaptiveHamsterGUI.makedirs := Returned tt;
     AdaptiveHamsterGUI.config_file := None;
     AdaptiveHamsterGUI.open_for_writing := Returned tt |}.

Definition fs_station_only : AdaptiveHamsterGUI.ConfigFS :=
  {| AdaptiveHamsterGUI.makedirs := Returned tt;
     AdaptiveHamsterGUI.config_file := Some (Returned (PDict station_only));
     AdaptiveHamsterGUI.open_for_writing := Returned tt |}.

(** *** Status hosts used as examples *)

(** Every helper program answers. *)
Definition healthy_status_host : AdaptiveHamsterGUI.StatusHost :=
  {| AdaptiveHamsterGUI.systemctl_is_active :=
       fun _ => Returned ("active" ++ nl)%string;
     AdaptiveHamsterGUI.hostname_I := Returned ("192.168.1.20 " ++ nl)%string;
     AdaptiveHamsterGUI.which := fun _ => Returned 0 |}.

(** The same machine without [systemctl]: running it raises
    [FileNotFoundError]; the other four queries answer. *)
Definition no_systemctl_host : AdaptiveHamsterGUI.StatusHost :=
  {| AdaptiveHamsterGUI.systemctl_is_active :=
       fun service => if String.eqb service "ssh"
                      then Raised FileNotFoundError
                      else Returned ("active" ++ nl)%string;
     AdaptiveHamsterGUI.hostname_I := Returned ("192.168.1.20 " ++ nl)%string;
     AdaptiveHamsterGUI.which := fun _ => Returned 0 |}.

(** [hostname] is the one query that raises. *)
Definition no_hostname_host : AdaptiveHamsterGUI.StatusHost :=
  {| AdaptiveHamsterGUI.systemctl_is_active :=
       fun _ => Returned ("active" ++ nl)%string;
     AdaptiveHamsterGUI.hostname_I := Raised FileNotFoundError;
     AdaptiveHamsterGUI.which := fun _ => Returned 0 |}.

(** The same for the poll of [hamster-gui.py]. *)
Definition gui_no_systemctl_host : HamsterGUI.StatusHost :=
  {| HamsterGUI.systemctl_is_active :=
       fun service => if String.eqb service "ssh"
                      then Raised FileNotFoundError
                      else Returned ("active" ++ nl)%string;
     HamsterGUI.hostname_I := Returned ("192.168.1.20 " ++ nl)%string;
     HamsterGUI.dev_input_js0 := true;
     HamsterGUI.which := fun _ => Returned 0;
     HamsterGUI.system_info := Returned "Kernel: 6.1 | Architecture: aarch64 | Available: 12G" |}.

(** *** The descriptor of a machine on which nothing answers *)

Definition default_detector : Detector :=
  {| environment :=
       {| type := minimal_linux; is_pi := false; is_desktop := false;
          is_console := false; has_systemd := false;
          desktop_environment := None |};
     input_methods :=
       {| keyboard := true; mouse := false; touchscreen := false;
          gamepad := false; joystick_devices := [] |};
     screen_info :=
       {| width := 1024; height := 768; dpi := 96;
          is_small_screen := false; is_touch_optimized := false |} |}.

(** *** The merge of the preferences, stated on the dictionary *)

(** Each default section is added when, and only when, its key is absent. *)
Fixpoint merge_dict (defaults d : PyDict.dict) : PyDict.dict :=
  match defaults with
  | [] => d
  | (key, value) :: rest =>
      merge_dict rest (if PyDict.has key d then d else PyDict.set key value d)
  end.

(** A status entry holds a definite boolean. *)
Definition is_bool (v : option pyval) : bool :=
  match v with
  | Some (PBool _) => true
  | _ => false
  end.

(** *** More example hosts *)

(** A handheld whose model text is written in capitals. *)
Definition capital_model_host : Host := with_model "ANBERNIC RG35XX" bare_host.

(** Only [XDG_CURRENT_DESKTOP] is set; [DESKTOP_SESSION] is set but empty. *)
Definition xdg_only_host : Host :=
  {| proc_cpuinfo := Raised FileNotFoundError;
     env_DESKTOP_SESSION := Some EmptyString;
     env_XDG_CURRENT_DESKTOP := Some "KDE";
     proc_device_tree_model := Raised FileNotFoundError;
     run_systemd_system := true;
     dev_input_event := [];
     udevadm_info := fun _ => Raised FileNotFoundError;
     dev_input_mouse := [];
     dev_input_js := [];
     xrandr := Raised FileNotFoundError;
     tk_Tk := Raised TclError |}.

(** The display server is missing; the toolkit reports a width and then
    raises on the height. *)
Definition half_tk_host : Host :=
  {| proc_cpuinfo := Raised FileNotFoundError;
     env_DESKTOP_SESSION := None;
     env_XDG_CURRENT_DESKTOP := None;
     proc_device_tree_model := Raised FileNotFoundError;
     run_systemd_system := false;
     dev_input_event := [];
     udevadm_info := fun _ => Raised FileNotFoundError;
     dev_input_mouse := [];
     dev_input_js := [];
     xrandr := Raised FileNotFoundError;
     tk_Tk := Returned {| winfo_screenwidth := Returned 1280;
                          winfo_screenheight := Raised TclError |} |}.

(* ===================================================================== *)
(** ** The rest of class AdaptiveHamsterGUI *)
(* ===================================================================== *)

(** Python's [str(n)] for an [int]. *)
Definition str_of_Z (z : Z) : string := NilZero.string_of_int (Z.to_int z).

(** Every character of a text passes a test. *)
Fixpoint all_chars (p : ascii -> bool) (s : string) : bool :=
  match s with
  | EmptyString => true
  | String c s' => p c && all_chars p s'
  end.

(** The characters [str(n)] is made of. *)
Definition is_dec_char (c : ascii) : bool :=
  match PyStr.digit_of c with
  | Some _ => true
  | None => Ascii.eqb c "-"
  end.

Definition is_not (sep : ascii) (c : ascii) : bool := negb (Ascii.eqb c sep).

Definition not_space (c : ascii) : bool := negb (PyStr.isspace c).

Module AdaptiveUI.

Import EnvironmentDetector.

(** *** Theme: [get_theme_color], lines 287-314 *)

Definition dark_colors : list (string * string) :=
  [("bg_primary", "#2c3e50"); ("bg_secondary", "#34495e");
   ("fg_primary", "#ecf0f1"); ("fg_secondary", "#bdc3c7");
   ("accent", "#3498db"); ("success", "#27ae60");
   ("warning", "#f39c12"); ("error", "#e74c3c")].

Definition light_colors : list (string * string) :=
  [("bg_primary", "#ffffff"); ("bg_secondary", "#f8f9fa");
   ("fg_primary", "#212529"); ("fg_secondary", "#6c757d");
   ("accent", "#007bff"); ("success", "#28a745");
   ("warning", "#ffc107"); ("error", "#dc3545")].

(** [colors.get(element)] *)
Fixpoint colors_get (element : string) (colors : list (string * string))
  : option string :=
  match colors with
  | [] => None
  | (k, v) :: rest =>
      if String.eqb k element then Some v else colors_get element rest
  end.

Definition get_theme_color (window_mode : Mode.t) (element : string)
  : string :=
  let colors :=
    match window_mode with
    | Mode.fullscreen_console | Mode.touchscreen => dark_colors
    | _ => light_colors
    end in
  match colors_get element colors with
  | Some color => color
  | None => "#000000"
  end.

(** *** The status widgets the layouts create *)

(** A [tk.Label]: its text and its foreground colour. *)
Record Label : Type := { text : string; fg : string }.

(** The attributes of [self] that [update_status_display] looks for with
    [hasattr]; [None] is an attribute that was never created. *)
Record Widgets : Type := {
  status_labels : option (list (string * Label));
  status_text : option string;
  info_text_widget : option string
}.

Definition no_widgets : Widgets :=
  {| status_labels := None; status_text := None; info_text_widget := None |}.

(** Lines 608-638. *)
Definition create_status_section (window_mode : Mode.t) (w : Widgets)
  : Widgets :=
  {| status_labels :=
       Some (map (fun key =>
                    (key, {| text := "Checking...";
                             fg := get_theme_color window_mode "warning" |}))
                 ["ssh"; "bluetooth"; "network"; "direwolf"; "qsstv"]);
     status_text := status_text w;
     info_text_widget := info_text_widget w |}.

(** Lines 640-650. *)
Definition create_status_section_touch (w : Widgets) : Widgets :=
  {| status_labels := status_labels w;
     status_text := Some "Checking system status...";
     info_text_widget := info_text_widget w |}.

(** Lines 652-665. *)
Definition create_system_info_desktop (w : Widgets) : Widgets :=
  {| status_labels := status_labels w;
     status_text := status_text w;
     info_text_widget := Some EmptyString |}.

(** Lines 440-491: the layout chosen by the window mode, as far as the
    status widgets go (titles, buttons and hints hold no status). *)
Definition create_widgets (window_mode : Mode.t) : Widgets :=
  match window_mode with
  | Mode.desktop =>
      create_system_info_desktop
        (create_status_section window_mode no_widgets)
  | Mode.touchscreen | Mode.fullscreen_console =>
      create_status_section_touch no_widgets
  | Mode.minimal => create_status_section window_mode no_widgets
  end.

(** *** Showing a snapshot: [update_status_display], lines 766-811 *)

(** The values [update_status] stores: a flag, or the address ([str] or
    [None]). *)
Inductive status_value : Type :=
| Flag (b : bool)
| Address (ip : option string).

Definition snapshot : Type := list (string * status_value).

Definition status_value_of (v : pyval) : option status_value :=
  match v with
  | PBool b => Some (Flag b)
  | PStr s => Some (Address (Some s))
  | PNone => Some (Address None)
  | _ => None
  end.

(** The published dictionary, read with its value types. *)
Fixpoint snapshot_of (d : PyDict.dict) : option snapshot :=
  match d with
  | [] => Some []
  | (k, v) :: rest =>
      match status_value_of v, snapshot_of rest with
      | Some sv, Some rest' => Some ((k, sv) :: rest')
      | _, _ => None
      end
  end.

(** [bool(value)] *)
Definition value_truthy (v : status_value) : bool :=
  match v with
  | Flag b => b
  | Address ip => truthy ip
  end.

(** [status_info.get(key)] *)
Fixpoint status_get (key : string) (status_info : snapshot)
  : option status_value :=
  match status_info with
  | [] => None
  | (k, v) :: rest =>
      if String.eqb k key then Some v else status_get key rest
  end.

(** [bool(status_info.get('ip'))] *)
Definition has_ip (status_info : snapshot) : bool :=
  match status_get "ip" status_info with
  | Some v => value_truthy v
  | None => false
  end.

(** [status_info['ip'][:15]], asked only when [has_ip] holds: a flag
    cannot be sliced. *)
Definition ip_prefix (status_info : snapshot) : outcome string :=
  match status_get "ip" status_info with
  | Some (Address (Some s)) => Returned (String.substring 0 15 s)
  | _ => Raised TypeError
  end.

(** [f"{status_info['ip']}"] *)
Definition ip_text (status_info : snapshot) : string :=
  match status_get "ip" status_info with
  | Some (Address (Some s)) => s
  | Some (Address None) => "None"
  | Some (Flag true) => "True"
  | Some (Flag false) => "False"
  | None => EmptyString
  end.

Fixpoint labels_has (key : string) (labels : list (string * Label)) : bool :=
  match labels with
  | [] => false
  | (k, _) :: rest => String.eqb k key || labels_has key rest
  end.

(** [self.status_labels[key].config(text=..., fg=...)] *)
Fixpoint labels_config (key : string) (l : Label)
  (labels : list (string * Label)) : list (string * Label) :=
  match labels with
  | [] => []
  | (k, old) :: rest =>
      if String.eqb k key then (k, l) :: rest
      else (k, old) :: labels_config key l rest
  end.

Fixpoint labels_get (key : string) (labels : list (string * Label))
  : option Label :=
  match labels with
  | [] => None
  | (k, l) :: rest => if String.eqb k key then Some l else labels_get key rest
  end.

(** Lines 770-778: the loop over the items of the snapshot. *)
Fixpoint update_labels (window_mode : Mode.t) (status_info : snapshot)
  (items : snapshot) (labels : list (string * Label))
  : outcome unit * list (string * Label) :=
  match items with
  | [] => (Returned tt, labels)
  | (key, value) :: rest =>
      if labels_has key labels then
        let color :=
          if value_truthy value then get_theme_color window_mode "success"
          else get_theme_color window_mode "error" in
        if String.eqb key "network" && has_ip status_info then
          match ip_prefix status_info with
          | Raised e => (Raised e, labels)
          | Returned prefix =>
              update_labels window_mode status_info rest
                (labels_config key
                   {| text := "Connected (" ++ prefix ++ "...)";
                      fg := color |} labels)
          end
        else
          update_labels window_mode status_info rest
            (labels_config key
               {| text := if value_truthy value then "Active" else "Inactive";
                  fg := color |} labels)
      else update_labels window_mode status_info rest labels
  end.

(** Lines 782-786: the one-line status of the touch layout. *)
Definition status_line (status_info : snapshot) : string :=
  let active_services :=
    map fst
      (filter (fun kv => value_truthy (snd kv)
                         && negb (String.eqb (fst kv) "ip"))
              status_info) in
  ("Active: " ++ String.concat ", " active_services
   ++ (if has_ip status_info then " | IP: " ++ ip_text status_info
       else EmptyString))%string.

Definition type_name (t : env_type) : string :=
  match t with
  | unknown => "unknown"
  | raspberry_pi => "raspberry_pi"
  | desktop => "desktop"
  | gaming_console => "gaming_console"
  | minimal_linux => "minimal_linux"
  end.

Definition newline : string := String "010" EmptyString.

(** Lines 792-811: the text put into the system-info widget; [uname_r]
    is the standard output of [uname -r], or what running it raises. *)
Definition system_info_text (detector : Detector) (uname_r : outcome string)
  : string :=
  ("Environment: " ++ type_name (type (environment detector)) ++ newline
   ++ "Screen: " ++ str_of_Z (width (screen_info detector)) ++ "x"
   ++ str_of_Z (height (screen_info detector)) ++ newline
   ++ "Touch: "
   ++ (if touchscreen (input_methods detector) then "Yes" else "No")
   ++ newline
   ++ "Gamepad: "
   ++ (if gamepad (input_methods detector) then "Yes" else "No")
   ++ newline
   ++ match uname_r with
      | Returned stdout => "Kernel: " ++ PyStr.strip stdout ++ newline
      | Raised _ => EmptyString
      end)%string.

(** Lines 766-790. *)
Definition update_status_display (window_mode : Mode.t) (detector : Detector)
  (uname_r : outcome string) (status_info : snapshot) : Py Widgets unit :=
  fun w =>
    let '(r, labels') :=
      match status_labels w with
      | Some labels =>
          let '(r, labels') :=
            update_labels window_mode status_info status_info labels in
          (r, Some labels')
      | None => (Returned tt, None)
      end in
    match r with
    | Raised e =>
        (Raised e,
         {| status_labels := labels'; status_text := status_text w;
            info_text_widget := info_text_widget w |})
    | Returned _ =>
        (Returned tt,
         {| status_labels := labels';
            status_text :=
              match status_text w with
              | Some _ => Some (status_line status_info)
              | None => None
              end;
            info_text_widget :=
              match info_text_widget w with
              | Some _ => Some (system_info_text detector uname_r)
              | None => None
              end |})
    end.

(** *** Launching: [launch_aprs], [run_script_in_terminal] and their kin,
    lines 817-912 *)

(** What the actions ask of the desktop. *)
Record Desktop : Type := {
  (** [os.path.dirname(__file__)] *)
  dirname_file : string;
  (** return code of [which <terminal>] *)
  which : string -> outcome Z;
  (** [subprocess.Popen(argv)] *)
  Popen : list string -> outcome unit;
  (** the answer to [messagebox.askyesno] *)
  askyesno : bool;
  (** [str(e)] *)
  str_exn : exn -> string
}.

(** What the user gets to see: a started process or a dialog. *)
Inductive event : Type :=
| Spawned (argv : list string)
| showinfo (title message : string)
| showerror (title message : string).

Definition emit (e : event) : Py (list event) unit :=
  modify (fun log => log ++ [e]).

Fixpoint endswith_slash (s : string) : bool :=
  match s with
  | EmptyString => false
  | String c EmptyString => Ascii.eqb c "/"
  | String _ s' => endswith_slash s'
  end.

(** One step of [os.path.join]: an absolute component replaces what was
    joined so far. *)
Definition join2 (path b : string) : string :=
  if PyStr.startswith b "/" then b
  else if negb (PyStr.nonempty path) || endswith_slash path
       then (path ++ b)%string
       else (path ++ "/" ++ b)%string.

(** [os.path.join(a, *p)] *)
Definition path_join (a : string) (p : list string) : string :=
  fold_left join2 p a.

Definition script_path (d : Desktop) (script_name : string) : string :=
  path_join (dirname_file d) ["scripts"; script_name].

(** [subprocess.Popen(argv)], noted when it worked. *)
Definition spawn (d : Desktop) (argv : list string) : Py (list event) unit :=
  eval (Popen d argv) ;;; emit (Spawned argv).

(** [try: body  except Exception as e: self.show_error("Error", f"{what}: {e}")] *)
Definition try_show_error (d : Desktop) (what : string)
  (body : Py (list event) unit) : Py (list event) unit :=
  fun log =>
    match body log with
    | (Returned a, log') => (Returned a, log')
    | (Raised e, log') =>
        (Returned tt,
         log' ++ [showerror "Error" (what ++ ": " ++ str_exn d e)])
    end.

(** Lines 817-824. *)
Definition launch_aprs (d : Desktop) : Py (list event) unit :=
  try_show_error d "Failed to launch APRS Chatty X"
    (spawn d ["bash"; script_path d "launch_aprs_chatty_x.sh"] ;;;
     emit (showinfo "APRS Chatty X" "Launching APRS Chatty X...")).

(** Lines 826-833. *)
Definition launch_qsstv (d : Desktop) : Py (list event) unit :=
  try_show_error d "Failed to launch QSSTV"
    (spawn d ["bash"; script_path d "launch_qsstv.sh"] ;;;
     emit (showinfo "QSSTV" "Launching QSSTV...")).

Definition terminals : list string :=
  ["x-terminal-emulator"; "gnome-terminal"; "xterm"; "konsole"].

Definition terminal_argv (terminal path : string) : list string :=
  [terminal; "-e";
   ("bash " ++ path ++ "; read -p " ++ String "034" "Press Enter to close..."
    ++ String "034" EmptyString)%string].

(** Lines 905-910: the [for ... else] over the terminal emulators. *)
Fixpoint try_terminals (d : Desktop) (path : string) (candidates : list string)
  : Py (list event) unit :=
  match candidates with
  | [] => emit (showerror "Error" "No terminal emulator found")
  | terminal :: rest =>
      returncode <- eval (which d terminal) ;;
      if returncode =? 0 then spawn d (terminal_argv terminal path)
      else try_terminals d path rest
  end.

(** Lines 900-912. *)
Definition run_script_in_terminal (d : Desktop) (script_name title : string)
  : Py (list event) unit :=
  try_show_error d ("Failed to run " ++ script_name)
    (try_terminals d (script_path d script_name) terminals).

(** Lines 839-841. *)
Definition check_dependencies (d : Desktop) : Py (list event) unit :=
  run_script_in_terminal d "check_dependencies.sh" "Dependency Check".


End AdaptiveUI.

(* ===================================================================== *)
(** ** class AdaptiveSettingsWindow: saving the station settings *)
(* ===================================================================== *)

Module AdaptiveSettingsWindow.

Import AdaptiveHamsterGUI.

(** What leaves [save_station_settings]: an exception of the store's
    kind, or the [KeyError] of a dictionary without the key. *)
Inductive raised : Type :=
| Exn (e : exn)
| KeyError (key : string).

(** [config[key]] for a string [key]. *)
Definition getitem (key : string) (config : pyval) : raised + pyval :=
  match config with
  | PDict d =>
      match PyDict.get key d with
      | Some v => inr v
      | None => inl (KeyError key)
      end
  | _ => inl (Exn TypeError)
  end.

(** The application as the settings window sees it: [main_app.config],
    the preference file, and the dialogs shown. *)
Record App : Type := {
  config : pyval;
  fs : ConfigFS;
  shown : list (string * string)
}.

(** The four entries of the station form, with what they hold. *)
Definition station_entries (callsign grid_square qth operator : string)
  : list (string * string) :=
  [("callsign", callsign); ("grid_square", grid_square);
   ("qth", qth); ("operator", operator)].

(** Lines 1100-1101: [config['station'][key] = entry.get()] for every
    entry.  The station dictionary is changed in place, so the
    configuration holds the new value at once. *)
Fixpoint store_entries (entries : list (string * string)) (config : pyval)
  : option raised * pyval :=
  match entries with
  | [] => (None, config)
  | (key, value) :: rest =>
      match getitem "station" config with
      | inl r => (Some r, config)
      | inr station =>
          match py_setitem key (PStr value) station with
          | Raised e => (Some (Exn e), config)
          | Returned station' =>
              match py_setitem "station" station' config with
              | Raised e => (Some (Exn e), config)
              | Returned config' => store_entries rest config'
              end
          end
      end
  end.

(** Lines 1098-1104. *)
Definition save_station_settings (entries : list (string * string))
  (app : App) : option raised * App :=
  match store_entries entries (config app) with
  | (Some r, config') =>
      (Some r, {| config := config'; fs := fs app; shown := shown app |})
  | (None, config') =>
      (None,
       {| config := config';
          fs := snd (save_config config' (fs app));
          shown := shown app ++ [("Settings", "Station settings saved!")] |})
  end.

End AdaptiveSettingsWindow.

(** *** Vocabulary and examples for the preferences *)

(** A JSON value that is neither a dictionary, a list nor a string. *)
Definition is_scalar (v : pyval) : bool :=
  match v with
  | PNone | PBool _ | PInt _ | PFloat _ => true
  | _ => false
  end.

(** The station dictionary after every entry was stored. *)
Definition set_all (entries : list (string * string)) (station : PyDict.dict)
  : PyDict.dict :=
  fold_left (fun acc kv => PyDict.set (fst kv) (PStr (snd kv)) acc)
            entries station.

(** A preference file that is not valid JSON. *)
Definition fs_corrupt : AdaptiveHamsterGUI.ConfigFS :=
  {| AdaptiveHamsterGUI.makedirs := Returned tt;
     AdaptiveHamsterGUI.config_file := Some (Raised JSONDecodeError);
     AdaptiveHamsterGUI.open_for_writing := Returned tt |}.


(** The application right after loading the station-only file. *)
Definition app_station_only : AdaptiveSettingsWindow.App :=
  {| AdaptiveSettingsWindow.config :=
       PDict (merge_dict AdaptiveHamsterGUI.default_config station_only);
     AdaptiveSettingsWindow.fs := fs_station_only;
     AdaptiveSettingsWindow.shown := [] |}.

(** The same with a preference file that cannot be written. *)
Definition app_read_only : AdaptiveSettingsWindow.App :=
  {| AdaptiveSettingsWindow.config :=
       PDict (merge_dict AdaptiveHamsterGUI.default_config station_only);
     AdaptiveSettingsWindow.fs :=
       {| AdaptiveHamsterGUI.makedirs := Returned tt;
          AdaptiveHamsterGUI.config_file :=
            Some (Returned (PDict station_only));
          AdaptiveHamsterGUI.open_for_writing := Raised PermissionError |};
     AdaptiveSettingsWindow.shown := [] |}.

(** *** Vocabulary and examples for the status display *)

(** The address the network query yields: the first word of what
    [hostname -I] printed, or nothing when it raised or printed blanks. *)
Definition detected_ip (q : AdaptiveHamsterGUI.StatusHost) : option string :=
  match AdaptiveHamsterGUI.hostname_I q with
  | Returned stdout =>
      match PyStr.split_ws (PyStr.strip stdout) with
      | a :: _ => if PyStr.nonempty (PyStr.strip stdout) then Some a else None
      | [] => None
      end
  | Raised _ => None
  end.

(** The snapshot of a cycle in which the four flags and the address came
    out as given. *)
Definition typed_snapshot (ssh bluetooth : bool) (ip : option string)
  (direwolf qsstv : bool) : AdaptiveUI.snapshot :=
  [("ssh", AdaptiveUI.Flag ssh);
   ("bluetooth", AdaptiveUI.Flag bluetooth);
   ("network", AdaptiveUI.Flag (truthy ip));
   ("ip", AdaptiveUI.Address ip);
   ("direwolf", AdaptiveUI.Flag direwolf);
   ("qsstv", AdaptiveUI.Flag qsstv)].

(** The name of a service when its flag is set. *)
Definition listed (flag : bool) (name : string) : list string :=
  if flag then [name] else [].

(** The label of a service in the desktop and minimal layouts. *)
Definition flag_label (window_mode : Mode.t) (flag : bool)
  : AdaptiveUI.Label :=
  {| AdaptiveUI.text := if flag then "Active" else "Inactive";
     AdaptiveUI.fg :=
       if flag then AdaptiveUI.get_theme_color window_mode "success"
       else AdaptiveUI.get_theme_color window_mode "error" |}.


(** [systemctl] answers for [ssh] and is gone for [bluetooth]. *)
Definition gui_half_host : HamsterGUI.StatusHost :=
  {| HamsterGUI.systemctl_is_active :=
       fun service => if String.eqb service "ssh"
                      then Returned ("inactive" ++ nl)%string
                      else Raised FileNotFoundError;
     HamsterGUI.hostname_I := Returned ("192.168.1.20 " ++ nl)%string;
     HamsterGUI.dev_input_js0 := true;
     HamsterGUI.which := fun _ => Returned 0;
     HamsterGUI.system_info := Returned "Kernel: 6.1" |}.

(** Every query answers, and finds nothing. *)
Definition gui_idle_host : HamsterGUI.StatusHost :=
  {| HamsterGUI.systemctl_is_active := fun _ => Returned "active";
     HamsterGUI.hostname_I := Returned EmptyString;
     HamsterGUI.dev_input_js0 := false;
     HamsterGUI.which := fun _ => Returned 1;
     HamsterGUI.system_info := Raised FileNotFoundError |}.

(* ===================================================================== *)
(** ** Facts about the string operations *)
(* ===================================================================== *)

Section StringFacts.

Lemma startswith_app (needle rest : string) :
  PyStr.startswith (needle ++ rest) needle = true.
Proof.
  induction needle as [|a needle IH]; simpl.
  - destruct rest; reflexivity.
  - rewrite Ascii.eqb_refl. exact IH.
Qed.

Lemma startswith_inv (needle s : string) :
  PyStr.startswith s needle = true -> exists rest, s = (needle ++ rest)%string.
Proof.
  revert s. induction needle as [|a needle IH]; intros s H.
  - exists s. reflexivity.
  - destruct s as [|b s]; simpl in H; [discriminate|].
    apply andb_true_iff in H. destruct H as [Hab Hs].
    apply Ascii.eqb_eq in Hab. subst b.
    destruct (IH s Hs) as [rest ->].
    exists rest. reflexivity.
Qed.

Lemma contains_nil (needle : string) :
  PyStr.contains needle EmptyString = PyStr.startswith EmptyString needle.
Proof. simpl. apply orb_false_r. Qed.

Lemma contains_cons (needle : string) (c : ascii) (s : string) :
  PyStr.contains needle (String c s)
  = PyStr.startswith (String c s) needle || PyStr.contains needle s.
Proof. reflexivity. Qed.

(** [needle in s] holds exactly when [needle] occurs in [s]. *)
Lemma contains_occurs (needle s : string) :
  PyStr.contains needle s = true <->
  exists before after, s = (before ++ needle ++ after)%string.
Proof.
  split.
  - induction s as [|c s IH]; intros H.
    + rewrite contains_nil in H.
      apply startswith_inv in H. destruct H as [rest ->].
      exists EmptyString, rest. reflexivity.
    + rewrite contains_cons in H.
      apply orb_true_iff in H. destruct H as [H|H].
      * apply startswith_inv in H. destruct H as [rest ->].
        exists EmptyString, rest. reflexivity.
      * destruct (IH H) as (before & after & ->).
        exists (String c before), after. reflexivity.
  - intros (before & after & ->).
    induction before as [|c before IH].
    + change (EmptyString ++ needle ++ after)%string
        with (needle ++ after)%string.
      destruct (needle ++ after)%string eqn:E.
      * rewrite contains_nil, <- E. apply startswith_app.
      * rewrite contains_cons, <- E, startswith_app. reflexivity.
    + change (String c before ++ needle ++ after)%string
        with (String c (before ++ needle ++ after))%string.
      rewrite contains_cons, IH. apply orb_true_r.
Qed.

(** The second test of [' connected primary' ... or ' connected ' ...] is
    the weaker one. *)
Lemma startswith_prefix (s a b : string) :
  PyStr.startswith s (a ++ b) = true -> PyStr.startswith s a = true.
Proof.
  revert s. induction a as [|c a IH]; intros s H.
  - destruct s; reflexivity.
  - destruct s as [|d s]; simpl in *; [discriminate|].
    apply andb_true_iff in H. destruct H as [H1 H2].
    rewrite H1. simpl. apply IH. exact H2.
Qed.

Lemma contains_prefix (s a b : string) :
  PyStr.contains (a ++ b) s = true -> PyStr.contains a s = true.
Proof.
  induction s as [|c s IH]; intros H.
  - rewrite contains_nil in *. apply startswith_prefix in H. exact H.
  - rewrite contains_cons in *.
    apply orb_true_iff in H. destruct H as [H|H].
    + apply startswith_prefix in H. rewrite H. reflexivity.
    + rewrite (IH H). apply orb_true_r.
Qed.

Lemma connected_test (line : string) :
  PyStr.contains " connected primary" line || PyStr.contains " connected " line
  = is_connected line.
Proof.
  unfold is_connected.
  destruct (PyStr.contains " connected primary" line) eqn:E; [|reflexivity].
  simpl. symmetry.
  apply (contains_prefix line " connected " "primary"). exact E.
Qed.

End StringFacts.

(* ===================================================================== *)
(** ** What each detection step computes *)
(* ===================================================================== *)

Section DetectorFacts.

(** Reading the CPU identification file twice: only the first test sees
    the text. *)
Lemma cpuinfo_test_BCM (content : string) :
  fst (cpuinfo_test {| unread := content |}) = PyStr.contains "BCM" content.
Proof.
  unfold cpuinfo_test, read. cbn [unread].
  destruct (PyStr.contains "BCM" content); reflexivity.
Qed.

(** [detect_environment] in closed form. *)
Lemma detect_environment_closed (h : Host) :
  detect_environment h =
  Returned
    {| type := resolved_type h;
       is_pi := sbc_signal h;
       is_desktop := desktop_signal h;
       is_console := handheld_signal h;
       has_systemd := run_systemd_system h;
       desktop_environment :=
         if desktop_signal h then option_map PyStr.lower (desktop_variable h)
         else None |}.
Proof.
  unfold detect_environment, returning, check_raspberry_pi,
    check_desktop_environment, check_gaming_console, default_type,
    resolved_type, sbc_signal, desktop_signal, handheld_signal,
    desktop_variable.
  unfold Py.bind, try_except, eval, modify, get, pass, ret, open_.
  destruct (proc_cpuinfo h) as [content|e1];
    [rewrite cpuinfo_test_BCM; destruct (PyStr.contains "BCM" content)|];
    destruct (truthy (py_or (env_DESKTOP_SESSION h)
                            (env_XDG_CURRENT_DESKTOP h)));
    (destruct (proc_device_tree_model h) as [model|e2];
     [ unfold read; cbn [fst unread];
       destruct (existsb (fun console : string =>
                   PyStr.contains console (PyStr.lower model))
                   console_markers)
     | ]);
    reflexivity.
Qed.

(** The loop over the event devices sets the flag exactly when some
    device answers with the touchscreen property; it never raises. *)
Lemma scan_touch_devices_closed (h : Host) (devices : list string)
  (m : InputMethods) :
  scan_touch_devices h devices m =
  (Returned tt,
   if existsb (fun device =>
                 match udevadm_info h device with
                 | Returned stdout =>
                     PyStr.contains "ID_INPUT_TOUCHSCREEN=1" stdout
                 | Raised _ => false
                 end) devices
   then set_touchscreen true m else m).
Proof.
  induction devices as [|device rest IH]; [reflexivity|].
  cbn [scan_touch_devices existsb].
  unfold Py.bind, try_except, eval, modify, ret, pass in *.
  destruct (udevadm_info h device) as [stdout|e].
  - destruct (PyStr.contains "ID_INPUT_TOUCHSCREEN=1" stdout);
      [reflexivity | apply IH].
  - apply IH.
Qed.

(** [detect_input_methods] in closed form. *)
Lemma detect_input_methods_closed (h : Host) :
  detect_input_methods h =
  Returned
    {| keyboard := true;
       mouse := 0 <? Z.of_nat (length (dev_input_mouse h));
       touchscreen := touch_signal h;
       gamepad := 0 <? Z.of_nat (length (dev_input_js h));
       joystick_devices := dev_input_js h |}.
Proof.
  unfold detect_input_methods, returning, touch_signal.
  unfold Py.bind at 1. unfold try_except at 1.
  rewrite scan_touch_devices_closed.
  unfold Py.bind, modify, pass, ret.
  destruct (existsb _ (dev_input_event h)); reflexivity.
Qed.

(** The loop over the words of a line stops at the first geometry. *)
Lemma scan_parts_closed (parts : list string) (info : ScreenInfo) :
  scan_parts parts info =
  match find is_geometry parts with
  | None => (Returned tt, info)
  | Some part =>
      match unpack_resolution (before_plus part) with
      | Returned wh =>
          (Returned tt, set_height (snd wh) (set_width (fst wh) info))
      | Raised e => (Raised e, info)
      end
  end.
Proof.
  induction parts as [|part rest IH]; [reflexivity|].
  cbn [scan_parts find]. unfold is_geometry at 1.
  fold (before_plus part).
  destruct (PyStr.contains "x" part && PyStr.contains "+" part);
    [|exact IH].
  destruct (PyStr.contains "x" (before_plus part)); cbn [andb]; [|exact IH].
  unfold Py.bind, eval, modify.
  destruct (unpack_resolution (before_plus part)); reflexivity.
Qed.

(** The loop over the lines stops at the first connected output. *)
Lemma scan_lines_closed (lines : list string) (info : ScreenInfo) :
  scan_lines lines info =
  match find is_connected lines with
  | None => (Returned tt, info)
  | Some line => scan_parts (PyStr.split_ws line) info
  end.
Proof.
  induction lines as [|line rest IH]; [reflexivity|].
  cbn [scan_lines find]. rewrite connected_test.
  destruct (is_connected line); [reflexivity | exact IH].
Qed.

(** The handler of the display-server block: it never raises, and keeps
    what it stored before a toolkit call raised. *)
Lemma toolkit_stage (h : Host) :
  try_except
    (root <- eval (tk_Tk h) ;;
     w <- eval (winfo_screenwidth root) ;;
     modify (set_width w) ;;;
     ht <- eval (winfo_screenheight root) ;;
     modify (set_height ht))
    pass info_init
  = (Returned tt,
     set_height (snd (toolkit_size h))
       (set_width (fst (toolkit_size h)) info_init)).
Proof.
  unfold toolkit_size, try_except, Py.bind, eval, modify, pass, ret.
  destruct (tk_Tk h) as [root|e]; [|reflexivity].
  destruct (winfo_screenwidth root) as [w|e]; [|reflexivity].
  destruct (winfo_screenheight root) as [ht|e]; reflexivity.
Qed.

(** The try block and its handler leave the size [display_size] in the
    dictionary and never raise. *)
Lemma query_resolution_closed (h : Host) :
  query_resolution h info_init =
  (Returned tt,
   set_height (snd (display_size h))
     (set_width (fst (display_size h)) info_init)).
Proof.
  unfold query_resolution, display_size, read_xrandr.
  unfold try_except at 1. unfold Py.bind at 1. unfold eval at 1.
  destruct (xrandr h) as [stdout|e].
  - rewrite scan_lines_closed.
    destruct (find is_connected (PyStr.split "010" stdout)) as [line|].
    + rewrite scan_parts_closed.
      destruct (find is_geometry (PyStr.split_ws line)) as [part|].
      * destruct (unpack_resolution (before_plus part)) as [wh|e].
        -- reflexivity.
        -- apply toolkit_stage.
      * reflexivity.
    + reflexivity.
  - apply toolkit_stage.
Qed.

(** [detect_screen_info] in closed form. *)
Lemma detect_screen_info_closed (h : Host) (env : Environment)
  (methods : InputMethods) :
  detect_screen_info h env methods =
  Returned
    {| width := fst (display_size h);
       height := snd (display_size h);
       dpi := 96;
       is_small_screen :=
         (fst (display_size h) <=? 800) || (snd (display_size h) <=? 480);
       is_touch_optimized :=
         (touchscreen methods
          && ((fst (display_size h) <=? 800) || (snd (display_size h) <=? 480)))
         || is_pi env |}.
Proof.
  unfold detect_screen_info, returning.
  unfold Py.bind at 1. rewrite query_resolution_closed.
  reflexivity.
Qed.

(** The constructor never raises, and its result is determined field by
    field. *)
Lemma init_closed (h : Host) :
  init h =
  Returned
    {| environment :=
         {| type := resolved_type h;
            is_pi := sbc_signal h;
            is_desktop := desktop_signal h;
            is_console := handheld_signal h;
            has_systemd := run_systemd_system h;
            desktop_environment :=
              if desktop_signal h
              then option_map PyStr.lower (desktop_variable h)
              else None |};
       input_methods :=
         {| keyboard := true;
            mouse := 0 <? Z.of_nat (length (dev_input_mouse h));
            touchscreen := touch_signal h;
            gamepad := 0 <? Z.of_nat (length (dev_input_js h));
            joystick_devices := dev_input_js h |};
       screen_info :=
         {| width := fst (display_size h);
            height := snd (display_size h);
            dpi := 96;
            is_small_screen :=
              (fst (display_size h) <=? 800) || (snd (display_size h) <=? 480);
            is_touch_optimized :=
              (touch_signal h
               && ((fst (display_size h) <=? 800)
                   || (snd (display_size h) <=? 480)))
              || sbc_signal h |} |}.
Proof.
  unfold init.
  rewrite detect_environment_closed, detect_input_methods_closed,
    detect_screen_info_closed.
  reflexivity.
Qed.

End DetectorFacts.

(* ===================================================================== *)
(** ** Machine class and window mode *)
(* ===================================================================== *)

(** C10.  The CPU identification file is read once by the first substring
    test; the second test reads the exhausted file.  So for every host
    whose file can be read, [is_pi] is true exactly when [BCM] occurs in
    its text, and a text in which [Raspberry] occurs and [BCM] does not
    leaves [is_pi] false. *)
Theorem is_pi_iff_BCM (h : Host) (content : string) :
  proc_cpuinfo h = Returned content ->
  snd (read {| unread := content |}) = {| unread := EmptyString |} /\
  exists env,
    detect_environment h = Returned env /\
    (is_pi env = true <->
     exists before after, content = (before ++ "BCM" ++ after)%string) /\
    ((exists before after, content = (before ++ "Raspberry" ++ after)%string) ->
     ~ (exists before after, content = (before ++ "BCM" ++ after)%string) ->
     is_pi env = false).
Proof.
  intros Hfile. split; [reflexivity|].
  eexists. split; [apply detect_environment_closed|].
  cbn [is_pi]. unfold sbc_signal. rewrite Hfile.
  split.
  - apply contains_occurs.
  - intros _ Hno.
    destruct (PyStr.contains "BCM" content) eqn:E; [|reflexivity].
    exfalso. apply Hno. apply contains_occurs. exact E.
Qed.

Lemma is_pi_iff_BCM_witness :
  exists env,
    detect_environment raspberry_text_host = Returned env /\
    is_pi env = false.
Proof.
  destruct (is_pi_iff_BCM raspberry_text_host
              "Model : Raspberry Pi 4 Model B Rev 1.4" eq_refl)
    as (_ & env & Henv & _ & Hraspberry).
  exists env. split; [exact Henv|].
  apply Hraspberry.
  - exists "Model : ", " Pi 4 Model B Rev 1.4". reflexivity.
  - intros Hbcm. apply contains_occurs in Hbcm. vm_compute in Hbcm.
    discriminate Hbcm.
Defined.

(** C2, as the code has it.  The machine class is resolved by the
    precedence handheld over single-board computer over desktop session,
    and is minimal when no signal fires.  A non-empty desktop-session
    variable always sets [is_desktop] and records its lower-cased value;
    it makes the class desktop only when the other two signals are off. *)
Theorem machine_class_precedence (h : Host) :
  exists env,
    detect_environment h = Returned env /\
    type env =
      (if handheld_signal h then gaming_console
       else if sbc_signal h then raspberry_pi
       else if desktop_signal h then desktop
       else minimal_linux) /\
    is_desktop env = desktop_signal h /\
    desktop_environment env =
      (if desktop_signal h then option_map PyStr.lower (desktop_variable h)
       else None).
Proof.
  eexists. split; [apply detect_environment_closed|].
  repeat split.
Qed.

(** C2, as stated, fails: on a Raspberry Pi board with [DESKTOP_SESSION]
    set the class is [raspberry_pi], not [desktop]; and when the device
    model names a handheld as well, the class is [gaming_console], so
    handheld detection wins over single-board-computer detection. *)
Lemma desktop_session_does_not_decide_class :
  env_DESKTOP_SESSION pi_desktop_host = Some "LXDE-pi" /\
  (exists env,
     detect_environment pi_desktop_host = Returned env /\
     type env = raspberry_pi /\ type env <> desktop) /\
  sbc_signal handheld_pi_host = true /\
  (exists env,
     detect_environment handheld_pi_host = Returned env /\
     type env = gaming_console /\ type env <> raspberry_pi).
Proof.
  split; [reflexivity|]. split.
  - eexists. split; [vm_compute; reflexivity|].
    split; [reflexivity | discriminate].
  - split; [reflexivity|].
    eexists. split; [vm_compute; reflexivity|].
    split; [reflexivity | discriminate].
Qed.

(** C1.  The window mode follows the class by the fixed priority: the
    console class gives [fullscreen_console]; the Raspberry Pi class with a
    touch-optimized screen gives [touchscreen]; the desktop class gives
    [desktop]; everything else gives [minimal].  On every host the
    detector's descriptor with [is_console] set has the console class, so
    it gives [fullscreen_console], whatever [is_pi] is. *)
Theorem window_mode_priority :
  (forall d : Detector,
     (type (environment d) = gaming_console ->
      AdaptiveHamsterGUI.window_mode (AdaptiveHamsterGUI.setup_window d)
      = Mode.fullscreen_console) /\
     (type (environment d) = raspberry_pi ->
      is_touch_optimized (screen_info d) = true ->
      AdaptiveHamsterGUI.window_mode (AdaptiveHamsterGUI.setup_window d)
      = Mode.touchscreen) /\
     (type (environment d) = desktop ->
      AdaptiveHamsterGUI.window_mode (AdaptiveHamsterGUI.setup_window d)
      = Mode.desktop) /\
     (type (environment d) <> gaming_console ->
      ~ (type (environment d) = raspberry_pi /\
         is_touch_optimized (screen_info d) = true) ->
      type (environment d) <> desktop ->
      AdaptiveHamsterGUI.window_mode (AdaptiveHamsterGUI.setup_window d)
      = Mode.minimal)) /\
  (forall h : Host,
     exists d,
       init h = Returned d /\
       (is_console (environment d) = true ->
        AdaptiveHamsterGUI.window_mode (AdaptiveHamsterGUI.setup_window d)
        = Mode.fullscreen_console)).
Proof.
  split.
  - intros d. unfold AdaptiveHamsterGUI.setup_window.
    destruct (type (environment d)) eqn:Et;
      destruct (is_touch_optimized (screen_info d)) eqn:Eo;
      destruct (is_small_screen (screen_info d));
      cbn; repeat split; intros; try reflexivity; try discriminate;
      try congruence; exfalso; auto.
  - intros h. eexists. split; [apply init_closed|].
    unfold AdaptiveHamsterGUI.setup_window, resolved_type.
    cbn [environment is_console type].
    intros ->. reflexivity.
Qed.

Lemma window_mode_priority_witness :
  exists d,
    init handheld_pi_host = Returned d /\
    is_pi (environment d) = true /\
    is_console (environment d) = true /\
    AdaptiveHamsterGUI.window_mode (AdaptiveHamsterGUI.setup_window d)
    = Mode.fullscreen_console.
Proof.
  destruct (proj2 window_mode_priority handheld_pi_host) as (d & Hd & Hmode).
  exists d.
  assert (Hpi : is_pi (environment d) = true /\
                is_console (environment d) = true).
  { rewrite init_closed in Hd. injection Hd as <-. split; reflexivity. }
  destruct Hpi as [Hpi Hconsole].
  repeat split; try assumption. apply Hmode. exact Hconsole.
Defined.

(* ===================================================================== *)
(** ** Fault tolerance of the detector *)
(* ===================================================================== *)

Section Touch.

(** When the property query raises for every device, no device counts. *)
Lemma touch_signal_all_raise (h : Host) :
  (forall device, exists e, udevadm_info h device = Raised e) ->
  touch_signal h = false.
Proof.
  intros Hall. unfold touch_signal.
  induction (dev_input_event h) as [|device rest IH]; [reflexivity|].
  cbn [existsb]. destruct (Hall device) as [e ->]. exact IH.
Qed.

End Touch.

(** C4.  Detection never raises: on every host the constructor returns a
    descriptor.  A probe that raises leaves its field at the default: an
    unreadable CPU file leaves [is_pi] false, an unreadable model file
    leaves [is_console] false, a property query that raises for every
    device leaves [touchscreen] false, and when both the display server and
    the toolkit raise the size stays 1024x768.  When nothing answers at
    all, the descriptor is the all-default one. *)
Theorem detection_never_raises :
  (forall h : Host, exists d, init h = Returned d) /\
  (forall (h : Host) (d : Detector),
     init h = Returned d ->
     (forall e, proc_cpuinfo h = Raised e -> is_pi (environment d) = false) /\
     (forall e, proc_device_tree_model h = Raised e ->
                is_console (environment d) = false) /\
     ((forall device, exists e, udevadm_info h device = Raised e) ->
      touchscreen (input_methods d) = false) /\
     (forall e1 e2, xrandr h = Raised e1 -> tk_Tk h = Raised e2 ->
                    width (screen_info d) = 1024 /\
                    height (screen_info d) = 768)) /\
  (forall (h : Host) (e1 e2 e3 e4 : exn),
     proc_cpuinfo h = Raised e1 ->
     proc_device_tree_model h = Raised e2 ->
     env_DESKTOP_SESSION h = None ->
     env_XDG_CURRENT_DESKTOP h = None ->
     run_systemd_system h = false ->
     (forall device, exists e, udevadm_info h device = Raised e) ->
     dev_input_mouse h = [] ->
     dev_input_js h = [] ->
     xrandr h = Raised e3 ->
     tk_Tk h = Raised e4 ->
     init h = Returned default_detector).
Proof.
  split; [|split].
  - intros h. eexists. apply init_closed.
  - intros h d Hd. rewrite init_closed in Hd. injection Hd as <-.
    cbn [environment input_methods screen_info is_pi is_console
         touchscreen width height].
    split; [|split; [|split]].
    + intros e He. unfold sbc_signal. rewrite He. reflexivity.
    + intros e He. unfold handheld_signal. rewrite He. reflexivity.
    + apply touch_signal_all_raise.
    + intros e1 e2 Hx Htk. unfold display_size, toolkit_size.
      rewrite Hx, Htk.
      split; reflexivity.
  - intros h e1 e2 e3 e4 Hcpu Hmodel Hds Hxdg Hsys Hudev Hmouse Hjs Hx Htk.
    rewrite init_closed.
    unfold resolved_type, sbc_signal, handheld_signal, desktop_signal,
      desktop_variable, display_size, toolkit_size.
    rewrite Hcpu, Hmodel, Hds, Hxdg, Hsys, Hmouse, Hjs, Hx, Htk,
      (touch_signal_all_raise h Hudev).
    reflexivity.
Qed.

Lemma detection_never_raises_witness : init bare_host = Returned default_detector.
Proof.
  apply (proj2 (proj2 detection_never_raises) bare_host
           FileNotFoundError FileNotFoundError FileNotFoundError TclError);
    try reflexivity.
  intros device. exists FileNotFoundError. reflexivity.
Defined.

(* ===================================================================== *)
(** ** The display *)
(* ===================================================================== *)

(** C6, as the code has it.  The display server's text is scanned for the
    first line holding [ connected ] (primary or not) and, on that line,
    for the first word shaped [WxH+...]; its size is used.  The toolkit is
    asked only when running the display server or reading the two numbers
    raised; it gives its width and height when it answers.  The size is
    1024x768 when the toolkit raised as well, and also when the text was
    scanned without finding such a line or word. *)
Theorem display_detection_stages (h : Host) (env : Environment)
  (methods : InputMethods) :
  exists info,
    detect_screen_info h env methods = Returned info /\
    (width info, height info) =
      match xrandr h with
      | Returned stdout =>
          match read_xrandr stdout with
          | Found wh => wh
          | NoMatch => (1024, 768)
          | Failed => toolkit_size h
          end
      | Raised _ => toolkit_size h
      end /\
    (forall e, tk_Tk h = Raised e -> toolkit_size h = (1024, 768)) /\
    (forall root w ht,
       tk_Tk h = Returned root ->
       winfo_screenwidth root = Returned w ->
       winfo_screenheight root = Returned ht ->
       toolkit_size h = (w, ht)).
Proof.
  eexists. split; [apply detect_screen_info_closed|].
  cbn [width height]. rewrite <- surjective_pairing.
  split; [|split].
  - unfold display_size.
    destruct (xrandr h) as [stdout|e]; [|reflexivity].
    destruct (read_xrandr stdout); reflexivity.
  - intros e He. unfold toolkit_size. rewrite He. reflexivity.
  - intros root w ht Hroot Hw Hht. unfold toolkit_size.
    rewrite Hroot, Hw, Hht. reflexivity.
Qed.

(** C6, as stated, fails.  When the display server runs and prints
    nothing, the toolkit's 1920x1080 is not used: the size stays 1024x768.
    And with two connected outputs, the primary one listed second, the size
    is the first output's 1366x768, not the primary's 1920x1080. *)
Lemma display_fallback_only_on_raise :
  (xrandr silent_xrandr_host = Returned EmptyString /\
   toolkit_size silent_xrandr_host = (1920, 1080) /\
   exists info,
     detect_screen_info silent_xrandr_host env_init methods_init
     = Returned info /\
     (width info, height info) = (1024, 768) /\
     (width info, height info) <> (1920, 1080)) /\
  (xrandr two_outputs_host = Returned two_outputs /\
   PyStr.contains "HDMI-1 connected primary 1920x1080+1366+0" two_outputs
   = true /\
   exists info,
     detect_screen_info two_outputs_host env_init methods_init
     = Returned info /\
     (width info, height info) = (1366, 768) /\
     (width info, height info) <> (1920, 1080)).
Proof.
  split.
  - split; [reflexivity|]. split; [reflexivity|].
    eexists. split; [vm_compute; reflexivity|].
    split; [reflexivity | discriminate].
  - split; [reflexivity|]. split; [vm_compute; reflexivity|].
    eexists. split; [vm_compute; reflexivity|].
    split; [reflexivity | discriminate].
Qed.

(** C8.  For every host, [is_small_screen] is true exactly when the
    detected width is at most 800 or the detected height is at most 480;
    every pair of integers is the detected size of some host.  At 800x480
    and 800x481 it is true, at 801x481 it is false. *)
Theorem small_screen_iff :
  (forall (h : Host) (env : Environment) (methods : InputMethods),
     exists info,
       detect_screen_info h env methods = Returned info /\
       (is_small_screen info = true <->
        width info <= 800 \/ height info <= 480)) /\
  (forall (w ht : Z) (env : Environment) (methods : InputMethods),
     exists info,
       detect_screen_info (tk_only_host (w, ht)) env methods = Returned info /\
       width info = w /\ height info = ht /\
       is_small_screen info = (w <=? 800) || (ht <=? 480)) /\
  (forall (env : Environment) (methods : InputMethods),
     (exists info,
        detect_screen_info
          (with_xrandr (Returned (one_output "800x480")) bare_host)
          env methods = Returned info /\
        width info = 800 /\ height info = 480 /\
        is_small_screen info = true) /\
     (exists info,
        detect_screen_info
          (with_xrandr (Returned (one_output "801x481")) bare_host)
          env methods = Returned info /\
        width info = 801 /\ height info = 481 /\
        is_small_screen info = false) /\
     (exists info,
        detect_screen_info
          (with_xrandr (Returned (one_output "800x481")) bare_host)
          env methods = Returned info /\
        width info = 800 /\ height info = 481 /\
        is_small_screen info = true)).
Proof.
  split; [|split].
  - intros h env methods.
    eexists. split; [apply detect_screen_info_closed|].
    cbn [is_small_screen width height].
    rewrite orb_true_iff, !Z.leb_le. reflexivity.
  - intros w ht env methods.
    eexists. split; [apply detect_screen_info_closed|].
    repeat split.
  - intros env methods.
    repeat split; (eexists; split; [apply detect_screen_info_closed|]);
      repeat split.
Qed.

(** C7.  For every host, environment and input methods,
    [is_touch_optimized] is true exactly when (a touchscreen was found and
    the screen is small) or the machine is a Raspberry Pi; the four
    combinations of the two flags are listed for a small and for a large
    screen. *)
Theorem touch_optimized_iff :
  (forall (h : Host) (env : Environment) (methods : InputMethods),
     exists info,
       detect_screen_info h env methods = Returned info /\
       (is_touch_optimized info = true <->
        (touchscreen methods = true /\ is_small_screen info = true)
        \/ is_pi env = true)) /\
  (forall (h : Host) (touch pi : bool),
     exists info,
       detect_screen_info h (set_is_pi pi env_init)
         (set_touchscreen touch methods_init) = Returned info /\
       is_touch_optimized info =
         match touch, pi with
         | true, true => true
         | true, false => is_small_screen info
         | false, true => true
         | false, false => false
         end) /\
  (forall h : Host,
     exists d,
       init h = Returned d /\
       is_touch_optimized (screen_info d) =
         (touchscreen (input_methods d) && is_small_screen (screen_info d))
         || is_pi (environment d)).
Proof.
  split; [|split].
  - intros h env methods.
    eexists. split; [apply detect_screen_info_closed|].
    cbn [is_touch_optimized is_small_screen].
    rewrite orb_true_iff, andb_true_iff. reflexivity.
  - intros h touch pi.
    eexists. split; [apply detect_screen_info_closed|].
    cbn [is_touch_optimized is_small_screen].
    destruct touch, pi; cbn;
      rewrite ?orb_true_r, ?orb_false_r; reflexivity.
  - intros h. eexists. split; [apply init_closed|]. reflexivity.
Qed.

(** C9.  For every descriptor and base size, the font size is the base
    plus 4 on a touch-optimized screen, otherwise the base plus 2 on a
    small screen, otherwise the base. *)
Theorem font_size_scale (d : Detector) (base_size : Z) :
  (is_touch_optimized (screen_info d) = true ->
   AdaptiveHamsterGUI.get_font_size d base_size = base_size + 4) /\
  (is_touch_optimized (screen_info d) = false ->
   is_small_screen (screen_info d) = true ->
   AdaptiveHamsterGUI.get_font_size d base_size = base_size + 2) /\
  (is_touch_optimized (screen_info d) = false ->
   is_small_screen (screen_info d) = false ->
   AdaptiveHamsterGUI.get_font_size d base_size = base_size).
Proof.
  unfold AdaptiveHamsterGUI.get_font_size.
  repeat split; intros; repeat match goal with H : _ = _ |- _ => rewrite H end;
    reflexivity.
Qed.

Lemma font_size_scale_witness :
  AdaptiveHamsterGUI.get_font_size default_detector 12 = 12.
Proof.
  apply (proj2 (proj2 (font_size_scale default_detector 12))); reflexivity.
Defined.

(* ===================================================================== *)
(** ** Preferences *)
(* ===================================================================== *)

Section DictFacts.

Lemma get_set_same (key : string) (value : pyval) (d : PyDict.dict) :
  PyDict.get key (PyDict.set key value d) = Some value.
Proof.
  induction d as [|[k v] rest IH]; cbn.
  - rewrite String.eqb_refl. reflexivity.
  - destruct (String.eqb k key) eqn:E; cbn; rewrite E; [reflexivity | exact IH].
Qed.

Lemma get_set_other (key key' : string) (value : pyval) (d : PyDict.dict) :
  key <> key' ->
  PyDict.get key' (PyDict.set key value d) = PyDict.get key' d.
Proof.
  intros Hne. induction d as [|[k v] rest IH]; cbn.
  - destruct (String.eqb_spec key key'); [contradiction | reflexivity].
  - destruct (String.eqb_spec k key) as [->|Hk]; cbn.
    + destruct (String.eqb_spec key key'); [contradiction | reflexivity].
    + destruct (String.eqb k key'); [reflexivity | exact IH].
Qed.

(** On a dictionary the loop of [load_config] neither raises nor touches
    the file; it computes [merge_dict]. *)
Lemma merge_defaults_dict (defaults d : PyDict.dict)
  (fs : AdaptiveHamsterGUI.ConfigFS) :
  AdaptiveHamsterGUI.merge_defaults defaults (PDict d) fs
  = (Returned (PDict (merge_dict defaults d)), fs).
Proof.
  revert d. induction defaults as [|[key value] rest IH]; intros d.
  - reflexivity.
  - cbn [AdaptiveHamsterGUI.merge_defaults merge_dict].
    unfold Py.bind, eval, py_in, py_setitem.
    destruct (PyDict.has key d); cbn [negb]; apply IH.
Qed.

(** What the merged dictionary holds under every key. *)
Lemma merge_dict_lookup (d : PyDict.dict) (key : string) :
  PyDict.get key (merge_dict AdaptiveHamsterGUI.default_config d)
  = merged_lookup d key.
Proof.
  unfold merged_lookup, AdaptiveHamsterGUI.default_config.
  cbn [merge_dict]. unfold PyDict.has.
  destruct (PyDict.get "station" d) as [st|] eqn:Est.
  - destruct (PyDict.get "ui" d) as [ui|] eqn:Eui.
    + destruct (PyDict.get key d) eqn:Ek; [reflexivity|].
      cbn [PyDict.get]. destruct (String.eqb_spec "station" key) as [<-|_]; [congruence|].
      destruct (String.eqb_spec "ui" key) as [<-|_]; [congruence|].
      reflexivity.
    + destruct (String.eqb_spec "ui" key) as [<-|Hne].
      * rewrite get_set_same, Eui. reflexivity.
      * rewrite get_set_other by exact Hne.
        destruct (PyDict.get key d) eqn:Ek; [reflexivity|].
        cbn [PyDict.get]. destruct (String.eqb_spec "station" key) as [<-|_]; [congruence|].
        destruct (String.eqb_spec "ui" key) as [<-|_]; [congruence|].
        reflexivity.
  - rewrite (get_set_other "station" "ui") by discriminate.
    destruct (PyDict.get "ui" d) as [ui|] eqn:Eui.
    + destruct (String.eqb_spec "station" key) as [<-|Hne].
      * rewrite get_set_same, Est. reflexivity.
      * rewrite get_set_other by exact Hne.
        destruct (PyDict.get key d) eqn:Ek; [reflexivity|].
        cbn [PyDict.get]. destruct (String.eqb_spec "station" key) as [<-|_]; [congruence|].
        destruct (String.eqb_spec "ui" key) as [<-|_]; [congruence|].
        reflexivity.
    + destruct (String.eqb_spec "ui" key) as [<-|Hui].
      * rewrite get_set_same, Eui. reflexivity.
      * rewrite get_set_other by exact Hui.
        destruct (String.eqb_spec "station" key) as [<-|Hst].
        -- rewrite get_set_same, Est. reflexivity.
        -- rewrite get_set_other by exact Hst.
           destruct (PyDict.get key d) eqn:Ek; [reflexivity|].
           cbn [PyDict.get].
           destruct (String.eqb_spec "station" key) as [<-|_]; [congruence|].
           destruct (String.eqb_spec "ui" key) as [<-|_]; [congruence|].
           reflexivity.
Qed.

(** A dictionary that has both sections is left as it is. *)
Lemma merge_dict_complete (d : PyDict.dict) :
  PyDict.has "station" d = true ->
  PyDict.has "ui" d = true ->
  merge_dict AdaptiveHamsterGUI.default_config d = d.
Proof.
  intros Hst Hui. unfold AdaptiveHamsterGUI.default_config.
  cbn [merge_dict]. rewrite Hst, Hui. reflexivity.
Qed.

(** After the merge both sections are there. *)
Lemma merge_dict_has_sections (d : PyDict.dict) :
  PyDict.has "station" (merge_dict AdaptiveHamsterGUI.default_config d) = true
  /\ PyDict.has "ui" (merge_dict AdaptiveHamsterGUI.default_config d) = true.
Proof.
  unfold PyDict.has. rewrite !merge_dict_lookup. unfold merged_lookup.
  split.
  - destruct (PyDict.get "station" d); reflexivity.
  - destruct (PyDict.get "ui" d); reflexivity.
Qed.

(** Loading a file that holds a dictionary. *)
Lemma load_config_dict (fs : AdaptiveHamsterGUI.ConfigFS) (d : PyDict.dict) :
  AdaptiveHamsterGUI.makedirs fs = Returned tt ->
  AdaptiveHamsterGUI.config_file fs = Some (Returned (PDict d)) ->
  AdaptiveHamsterGUI.load_config fs
  = (Returned (PDict (merge_dict AdaptiveHamsterGUI.default_config d)), fs).
Proof.
  intros Hdir Hfile.
  unfold AdaptiveHamsterGUI.load_config, try_except, Py.bind, get, eval.
  rewrite Hdir, Hfile, merge_defaults_dict. reflexivity.
Qed.

End DictFacts.

(** C5.  Loading the preference file:
    - a missing file is created with the full defaults, which are the
      loaded configuration;
    - a file holding a dictionary is loaded with every key it has kept at
      its value, and with the default section under every key of the
      defaults that it lacks; the file itself is not rewritten;
    - a file with only the station section gives that section with the
      file's values, followed by the default [ui] section;
    - saving the loaded configuration and loading again gives the same
      configuration and leaves the saved file as it is. *)
Theorem load_config_merges_defaults :
  (forall fs : AdaptiveHamsterGUI.ConfigFS,
     AdaptiveHamsterGUI.makedirs fs = Returned tt ->
     AdaptiveHamsterGUI.config_file fs = None ->
     AdaptiveHamsterGUI.open_for_writing fs = Returned tt ->
     AdaptiveHamsterGUI.load_config fs
     = (Returned (PDict AdaptiveHamsterGUI.default_config),
        AdaptiveHamsterGUI.set_config_file
          (Some (Returned (PDict AdaptiveHamsterGUI.default_config))) fs)) /\
  (forall (fs : AdaptiveHamsterGUI.ConfigFS) (d : PyDict.dict),
     AdaptiveHamsterGUI.makedirs fs = Returned tt ->
     AdaptiveHamsterGUI.config_file fs = Some (Returned (PDict d)) ->
     exists d',
       AdaptiveHamsterGUI.load_config fs = (Returned (PDict d'), fs) /\
       forall key,
         PyDict.get key d' =
           match PyDict.get key d with
           | Some v => Some v
           | None => PyDict.get key AdaptiveHamsterGUI.default_config
           end) /\
  (forall (fs : AdaptiveHamsterGUI.ConfigFS) (station : pyval),
     AdaptiveHamsterGUI.makedirs fs = Returned tt ->
     AdaptiveHamsterGUI.config_file fs
     = Some (Returned (PDict [("station", station)])) ->
     AdaptiveHamsterGUI.load_config fs
     = (Returned (PDict [("station", station);
                         ("ui", PDict AdaptiveHamsterGUI.default_ui)]), fs)) /\
  (forall (fs : AdaptiveHamsterGUI.ConfigFS) (d : PyDict.dict),
     AdaptiveHamsterGUI.makedirs fs = Returned tt ->
     AdaptiveHamsterGUI.open_for_writing fs = Returned tt ->
     AdaptiveHamsterGUI.config_file fs = Some (Returned (PDict d)) ->
     exists config,
       fst (AdaptiveHamsterGUI.load_config fs) = Returned config /\
       let saved :=
         snd (AdaptiveHamsterGUI.save_config config
                (snd (AdaptiveHamsterGUI.load_config fs))) in
       AdaptiveHamsterGUI.config_file saved = Some (Returned config) /\
       AdaptiveHamsterGUI.load_config saved = (Returned config, saved)).
Proof.
  split; [|split; [|split]].
  - intros fs Hdir Hfile Hw.
    unfold AdaptiveHamsterGUI.load_config, AdaptiveHamsterGUI.dump,
      try_except, Py.bind, get, eval, modify, ret.
    rewrite Hdir, Hfile, Hw. reflexivity.
  - intros fs d Hdir Hfile.
    exists (merge_dict AdaptiveHamsterGUI.default_config d).
    split; [apply load_config_dict; assumption|].
    intros key. apply merge_dict_lookup.
  - intros fs station Hdir Hfile.
    rewrite (load_config_dict fs _ Hdir Hfile). reflexivity.
  - intros fs d Hdir Hw Hfile.
    rewrite (load_config_dict fs d Hdir Hfile).
    eexists. split; [reflexivity|].
    cbn [snd].
    unfold AdaptiveHamsterGUI.save_config, AdaptiveHamsterGUI.dump,
      try_except, Py.bind, get, eval, modify, pass, ret.
    rewrite Hw. cbn [snd]. split; [reflexivity|].
    rewrite (load_config_dict _
               (merge_dict AdaptiveHamsterGUI.default_config d));
      [|exact Hdir | reflexivity].
    destruct (merge_dict_has_sections d) as [Hst Hui].
    rewrite (merge_dict_complete _ Hst Hui). reflexivity.
Qed.

Lemma load_config_merges_defaults_witness :
  AdaptiveHamsterGUI.load_config fs_station_only
  = (Returned
       (PDict [("station", PDict [("callsign", PStr "K1ABC");
                                  ("grid_square", PStr "FN31pr");
                                  ("qth", PStr "Hartford");
                                  ("operator", PStr "Pat")]);
               ("ui", PDict AdaptiveHamsterGUI.default_ui)]),
     fs_station_only).
Proof.
  apply (proj1 (proj2 (proj2 load_config_merges_defaults)) fs_station_only);
    reflexivity.
Defined.

(* ===================================================================== *)
(** ** The status poll *)
(* ===================================================================== *)

Section PollFacts.

Import AdaptiveHamsterGUI.

(** The network query has a handler of its own: whether it answers or
    raises, it leaves a boolean under [network] and never raises. *)
Lemma check_network_total (q : StatusHost) (p : Poll) :
  exists (b : bool) (ip : pyval),
    check_network q p
    = (Returned tt, set_status "ip" ip (set_status "network" (PBool b) p)).
Proof.
  unfold check_network, try_except, Py.bind, eval, modify, ret.
  destruct (hostname_I q) as [stdout|e].
  - destruct (PyStr.nonempty (PyStr.strip stdout)).
    + destruct (first (PyStr.split_ws (PyStr.strip stdout))) as [a|e].
      * exists (truthy (Some a)), (PStr a). reflexivity.
      * exists false, PNone. reflexivity.
    + exists false, PNone. reflexivity.
  - exists false, PNone. reflexivity.
Qed.

(** When no service query and no executable query raises, one snapshot is
    published, with a boolean for each of the five services; the network
    query may raise or not. *)
Lemma poll_publishes_without_raise (q : StatusHost) :
  (forall service, exists stdout, systemctl_is_active q service = Returned stdout) ->
  (forall app, exists returncode, which q app = Returned returncode) ->
  exists snapshot,
    displayed (check_system_status q) = [snapshot] /\
    forallb (fun key => is_bool (PyDict.get key snapshot))
            ["ssh"; "bluetooth"; "network"; "direwolf"; "qsstv"] = true.
Proof.
  intros Hsvc Happ.
  destruct (Hsvc "ssh") as [o1 H1]. destruct (Hsvc "bluetooth") as [o2 H2].
  destruct (Happ "direwolf") as [r1 H3]. destruct (Happ "qsstv") as [r2 H4].
  unfold check_system_status, update_status, try_print.
  cbn [check_services check_applications].
  unfold Py.bind at 1. unfold Py.bind at 1. unfold eval at 1. rewrite H1.
  unfold Py.bind at 1. unfold modify at 1.
  unfold Py.bind at 1. unfold eval at 1. rewrite H2.
  unfold Py.bind at 1. unfold modify at 1.
  unfold pass at 1, ret at 1.
  unfold Py.bind at 1.
  destruct (check_network q
              (set_status "bluetooth"
                 (PBool (String.eqb (PyStr.strip o2) "active"))
                 (set_status "ssh"
                    (PBool (String.eqb (PyStr.strip o1) "active"))
                    poll_init))) as [res p] eqn:Enet.
  destruct (check_network_total q
              (set_status "bluetooth"
                 (PBool (String.eqb (PyStr.strip o2) "active"))
                 (set_status "ssh"
                    (PBool (String.eqb (PyStr.strip o1) "active"))
                    poll_init))) as (b & ip & Htot).
  rewrite Htot in Enet. injection Enet as <- <-.
  unfold Py.bind, eval, modify, pass, ret. rewrite H3, H4.
  generalize (String.eqb (PyStr.strip o1) "active") as b1.
  generalize (String.eqb (PyStr.strip o2) "active") as b2.
  generalize (r1 =? 0) as b3. generalize (r2 =? 0) as b4.
  intros b4 b3 b2 b1.
  eexists. split; reflexivity.
Qed.

(** A service query that raises ends the cycle at once: nothing is
    recorded and nothing is published. *)
Lemma poll_aborts_on_first_service (q : StatusHost) (e : exn) :
  systemctl_is_active q "ssh" = Raised e ->
  check_system_status q
  = {| status_info := []; displayed := []; printed := [e] |}.
Proof.
  intros H.
  unfold check_system_status, update_status, try_print.
  cbn [check_services].
  unfold Py.bind, eval. rewrite H. reflexivity.
Qed.

(** An executable query that raises ends the cycle too, after the other
    entries were recorded: the snapshot is not published. *)
Lemma poll_aborts_on_application (q : StatusHost) (e : exn) :
  (forall service, exists stdout, systemctl_is_active q service = Returned stdout) ->
  which q "direwolf" = Raised e ->
  exists recorded,
    check_system_status q
    = {| status_info := recorded; displayed := []; printed := [e] |}.
Proof.
  intros Hsvc Hw.
  destruct (Hsvc "ssh") as [o1 H1]. destruct (Hsvc "bluetooth") as [o2 H2].
  unfold check_system_status, update_status, try_print.
  cbn [check_services check_applications].
  unfold Py.bind at 1. unfold Py.bind at 1. unfold eval at 1. rewrite H1.
  unfold Py.bind at 1. unfold modify at 1.
  unfold Py.bind at 1. unfold eval at 1. rewrite H2.
  unfold Py.bind at 1. unfold modify at 1.
  unfold pass at 1, ret at 1.
  unfold Py.bind at 1.
  destruct (check_network_total q
              (set_status "bluetooth"
                 (PBool (String.eqb (PyStr.strip o2) "active"))
                 (set_status "ssh"
                    (PBool (String.eqb (PyStr.strip o1) "active"))
                    poll_init))) as (b & ip & ->).
  unfold Py.bind, eval. rewrite Hw. eexists. reflexivity.
Qed.

End PollFacts.

(** C3 at the failing input.  On a machine without [systemctl] the first
    service query raises while the four other queries would answer; the
    cycle ends there: no entry is recorded, no snapshot is published, and
    the error is printed.  The poll of [hamster-gui.py] leaves every label
    at its initial text on such a machine.  When it is the network query
    that raises, the snapshot is published with [network] false. *)
Theorem raising_service_query_aborts_poll :
  (AdaptiveHamsterGUI.systemctl_is_active no_systemctl_host "ssh"
   = Raised FileNotFoundError /\
   AdaptiveHamsterGUI.systemctl_is_active no_systemctl_host "bluetooth"
   = Returned ("active" ++ nl)%string /\
   AdaptiveHamsterGUI.hostname_I no_systemctl_host
   = Returned ("192.168.1.20 " ++ nl)%string /\
   AdaptiveHamsterGUI.which no_systemctl_host "direwolf" = Returned 0 /\
   AdaptiveHamsterGUI.which no_systemctl_host "qsstv" = Returned 0) /\
  AdaptiveHamsterGUI.check_system_status no_systemctl_host
  = {| AdaptiveHamsterGUI.status_info := [];
       AdaptiveHamsterGUI.displayed := [];
       AdaptiveHamsterGUI.printed := [FileNotFoundError] |} /\
  HamsterGUI.check_system_status gui_no_systemctl_host
  = {| HamsterGUI.status_labels := HamsterGUI.status_labels HamsterGUI.labels_init;
       HamsterGUI.info_label := HamsterGUI.info_label HamsterGUI.labels_init;
       HamsterGUI.printed := [FileNotFoundError] |} /\
  AdaptiveHamsterGUI.displayed
    (AdaptiveHamsterGUI.check_system_status no_hostname_host)
  = [[("ssh", PBool true); ("bluetooth", PBool true);
      ("network", PBool false); ("ip", PNone);
      ("direwolf", PBool true); ("qsstv", PBool true)]].
Proof.
  split; [repeat split|].
  split; [apply poll_aborts_on_first_service; reflexivity|].
  split; vm_compute; reflexivity.
Qed.

(* ===================================================================== *)
(** ** Further properties of the detector *)
(* ===================================================================== *)

Section MoreStringFacts.

Lemma lower_app (a b : string) :
  PyStr.lower (a ++ b) = (PyStr.lower a ++ PyStr.lower b)%string.
Proof.
  induction a as [|c a IH]; [reflexivity|].
  cbn [PyStr.lower String.append]. rewrite IH. reflexivity.
Qed.

Lemma lower_char_idempotent (c : ascii) :
  PyStr.lower_char (PyStr.lower_char c) = PyStr.lower_char c.
Proof.
  destruct c as [[] [] [] [] [] [] [] []]; vm_compute; reflexivity.
Qed.

Lemma lower_idempotent (s : string) :
  PyStr.lower (PyStr.lower s) = PyStr.lower s.
Proof.
  induction s as [|c s IH]; [reflexivity|].
  cbn [PyStr.lower]. rewrite lower_char_idempotent, IH. reflexivity.
Qed.

Lemma nonempty_true (s : string) :
  PyStr.nonempty s = true <-> s <> EmptyString.
Proof.
  destruct s; cbn; split; intros H; try discriminate; try reflexivity.
  contradiction H. reflexivity.
Qed.

End MoreStringFacts.

(** X1.  Input methods: the keyboard is always assumed; a touchscreen is
    reported exactly when some event device answers the property query
    with [ID_INPUT_TOUCHSCREEN=1] in its output (a device whose query
    raises is passed over and the scan goes on); the gamepad flag is set
    exactly when joystick nodes were found, and those nodes are recorded as
    found; the mouse flag is set exactly when mouse nodes were found. *)
Theorem input_methods_characterised (h : Host) :
  exists m,
    detect_input_methods h = Returned m /\
    keyboard m = true /\
    (touchscreen m = true <->
     exists device stdout,
       In device (dev_input_event h) /\
       udevadm_info h device = Returned stdout /\
       exists before after,
         stdout = (before ++ "ID_INPUT_TOUCHSCREEN=1" ++ after)%string) /\
    joystick_devices m = dev_input_js h /\
    (gamepad m = true <-> joystick_devices m <> []) /\
    (mouse m = true <-> dev_input_mouse h <> []).
Proof.
  eexists. split; [apply detect_input_methods_closed|].
  cbn [keyboard touchscreen joystick_devices gamepad mouse].
  split; [reflexivity|]. split; [|split; [reflexivity|split]].
  - unfold touch_signal. rewrite existsb_exists. split.
    + intros (device & Hin & Hdev).
      destruct (udevadm_info h device) as [stdout|e] eqn:E; [|discriminate].
      exists device, stdout. repeat split; try assumption.
      apply contains_occurs. exact Hdev.
    + intros (device & stdout & Hin & Hdev & Hocc).
      exists device. split; [exact Hin|]. rewrite Hdev.
      apply contains_occurs. exact Hocc.
  - destruct (dev_input_js h); cbn; split; intros H;
      try discriminate; try reflexivity. contradiction H. reflexivity.
  - destruct (dev_input_mouse h); cbn; split; intros H;
      try discriminate; try reflexivity. contradiction H. reflexivity.
Qed.

(** X2.  Invariants of the environment the detector builds: the class is
    never left at [unknown]; [is_console] and the console class go
    together; the Raspberry Pi class implies [is_pi] without [is_console];
    the desktop class implies [is_desktop] with neither of the two; the
    minimal class is exactly the absence of all three flags; and a desktop
    name is recorded exactly when [is_desktop] is set. *)
Theorem environment_invariants (h : Host) :
  exists env,
    detect_environment h = Returned env /\
    type env <> unknown /\
    (is_console env = true <-> type env = gaming_console) /\
    (type env = raspberry_pi -> is_pi env = true /\ is_console env = false) /\
    (type env = desktop ->
     is_desktop env = true /\ is_pi env = false /\ is_console env = false) /\
    (type env = minimal_linux <->
     is_pi env = false /\ is_desktop env = false /\ is_console env = false) /\
    (desktop_environment env = None <-> is_desktop env = false).
Proof.
  eexists. split; [apply detect_environment_closed|].
  cbn [type is_pi is_desktop is_console desktop_environment].
  unfold resolved_type, desktop_signal.
  destruct (handheld_signal h), (sbc_signal h);
    destruct (desktop_variable h) as [[|c s]|]; cbn;
    repeat split; intros; try discriminate; try reflexivity;
    try match goal with H : _ /\ _ |- _ => destruct H as (? & ? & ?) end;
    try discriminate.
Qed.

(** X3.  Handheld detection does not depend on letter case: when the
    device-model text holds a word whose lower-case form is one of the
    markers, the machine is classed as a gaming console, whatever the other
    probes found. *)
Theorem handheld_marker_any_case (h : Host)
  (content before marker after : string) :
  proc_device_tree_model h = Returned content ->
  content = (before ++ marker ++ after)%string ->
  In (PyStr.lower marker) console_markers ->
  exists env,
    detect_environment h = Returned env /\
    is_console env = true /\ type env = gaming_console.
Proof.
  intros Hfile -> Hin.
  eexists. split; [apply detect_environment_closed|].
  cbn [is_console type]. unfold resolved_type.
  assert (Hsig : handheld_signal h = true).
  { unfold handheld_signal. rewrite Hfile. apply existsb_exists.
    exists (PyStr.lower marker). split; [exact Hin|].
    apply contains_occurs.
    exists (PyStr.lower before), (PyStr.lower after).
    rewrite !lower_app. reflexivity. }
  rewrite Hsig. split; reflexivity.
Qed.

Lemma handheld_marker_any_case_witness :
  exists env,
    detect_environment capital_model_host = Returned env /\
    is_console env = true /\ type env = gaming_console.
Proof.
  apply (handheld_marker_any_case capital_model_host
           "ANBERNIC RG35XX" EmptyString "ANBERNIC" " RG35XX").
  - reflexivity.
  - reflexivity.
  - right. left. reflexivity.
Defined.

(** X4.  The desktop name comes from [DESKTOP_SESSION] when that holds a
    non-empty value, otherwise from [XDG_CURRENT_DESKTOP]; a variable that
    is set to the empty string counts as unset; when neither holds a
    value, no desktop is detected; and the recorded name is in lower
    case. *)
Theorem desktop_session_priority (h : Host) :
  exists env,
    detect_environment h = Returned env /\
    (forall s, env_DESKTOP_SESSION h = Some s -> s <> EmptyString ->
               is_desktop env = true /\
               desktop_environment env = Some (PyStr.lower s)) /\
    (forall s,
       env_DESKTOP_SESSION h = None \/ env_DESKTOP_SESSION h = Some EmptyString ->
       env_XDG_CURRENT_DESKTOP h = Some s -> s <> EmptyString ->
       is_desktop env = true /\
       desktop_environment env = Some (PyStr.lower s)) /\
    (env_DESKTOP_SESSION h = None \/ env_DESKTOP_SESSION h = Some EmptyString ->
     env_XDG_CURRENT_DESKTOP h = None
     \/ env_XDG_CURRENT_DESKTOP h = Some EmptyString ->
     is_desktop env = false /\ desktop_environment env = None) /\
    (forall name, desktop_environment env = Some name ->
                  PyStr.lower name = name).
Proof.
  eexists. split; [apply detect_environment_closed|].
  cbn [is_desktop desktop_environment].
  unfold desktop_signal, desktop_variable, py_or.
  split; [|split; [|split]].
  - intros s Hs Hne. rewrite Hs.
    destruct s; [contradiction Hne; reflexivity|]. split; reflexivity.
  - intros s [Hs|Hs] Hx Hne; rewrite Hs, Hx;
      (destruct s; [contradiction Hne; reflexivity|]); split; reflexivity.
  - intros [Hs|Hs] [Hx|Hx]; rewrite Hs, Hx; split; reflexivity.
  - intros name.
    destruct (truthy (if truthy (env_DESKTOP_SESSION h)
                      then env_DESKTOP_SESSION h
                      else env_XDG_CURRENT_DESKTOP h)); [|discriminate].
    destruct (if truthy (env_DESKTOP_SESSION h)
              then env_DESKTOP_SESSION h
              else env_XDG_CURRENT_DESKTOP h) as [v|]; [|discriminate].
    cbn [option_map]. intros [= <-]. apply lower_idempotent.
Qed.

Lemma desktop_session_priority_witness :
  exists env,
    detect_environment xdg_only_host = Returned env /\
    is_desktop env = true /\
    desktop_environment env = Some "kde".
Proof.
  destruct (desktop_session_priority xdg_only_host)
    as (env & Henv & _ & Hxdg & _).
  exists env. split; [exact Henv|].
  apply (Hxdg "KDE"); [right; reflexivity | reflexivity | discriminate].
Defined.

(* ===================================================================== *)
(** ** From the host to the window *)
(* ===================================================================== *)

(** X5.  Detection and window setup together: on every host the window
    mode is [fullscreen_console] when the handheld signal fired, else
    [touchscreen] when the single-board-computer signal fired (whatever the
    screen size and whether or not a touchscreen was found), else [desktop]
    when a desktop session was found, else [minimal].  So the dark palette
    is used exactly when the handheld or the single-board-computer signal
    fired. *)
Theorem window_mode_by_signals (h : Host) :
  exists d,
    init h = Returned d /\
    AdaptiveHamsterGUI.window_mode (AdaptiveHamsterGUI.setup_window d) =
      (if handheld_signal h then Mode.fullscreen_console
       else if sbc_signal h then Mode.touchscreen
       else if desktop_signal h then Mode.desktop
       else Mode.minimal) /\
    (AdaptiveUI.get_theme_color
       (AdaptiveHamsterGUI.window_mode (AdaptiveHamsterGUI.setup_window d))
       "bg_primary" = "#2c3e50"
     <-> handheld_signal h = true \/ sbc_signal h = true).
Proof.
  eexists. split; [apply init_closed|].
  unfold AdaptiveHamsterGUI.setup_window, resolved_type.
  cbn [environment screen_info type is_touch_optimized is_small_screen].
  destruct (handheld_signal h), (sbc_signal h), (desktop_signal h);
    cbn [env_type_eqb andb orb];
    rewrite ?orb_true_r;
    try destruct ((fst (display_size h) <=? 800)
                  || (snd (display_size h) <=? 480));
    cbn; (split; [reflexivity|]);
    (split; [intros H; try discriminate H; auto
            | intros [H|H]; try discriminate H; reflexivity]).
Qed.

(** X6.  On every host the window is made fullscreen exactly when the
    handheld signal fired, or the single-board-computer signal fired on a
    small screen; a fullscreen window is at most 800 wide or at most 480
    high; and a minimum size is set exactly in desktop mode. *)
Theorem fullscreen_only_on_small_devices (h : Host) :
  exists d,
    init h = Returned d /\
    let window := AdaptiveHamsterGUI.setup_window d in
    (AdaptiveHamsterGUI.fullscreen window = true <->
     handheld_signal h = true \/
     (sbc_signal h = true /\ is_small_screen (screen_info d) = true)) /\
    (AdaptiveHamsterGUI.fullscreen window = true ->
     fst (AdaptiveHamsterGUI.geometry window) <= 800 \/
     snd (AdaptiveHamsterGUI.geometry window) <= 480) /\
    (AdaptiveHamsterGUI.minsize window <> None <->
     AdaptiveHamsterGUI.window_mode window = Mode.desktop).
Proof.
  eexists. split; [apply init_closed|].
  unfold AdaptiveHamsterGUI.setup_window, resolved_type.
  cbn [environment screen_info type is_touch_optimized is_small_screen
       width height].
  destruct (handheld_signal h), (sbc_signal h), (desktop_signal h);
    cbn [env_type_eqb andb orb];
    rewrite ?orb_true_r;
    try destruct ((fst (display_size h) <=? 800)
                  || (snd (display_size h) <=? 480)) eqn:Esmall;
    cbn;
    (split; [split; [intros H; try discriminate H; auto
                    | intros [H|[H1 H2]]; try discriminate; reflexivity]|]);
    (split; [intros H; try discriminate H; try (left; lia);
             apply orb_true_iff in Esmall;
             rewrite !Z.leb_le in Esmall; exact Esmall|]);
    (split; [intros H; try reflexivity; contradiction H; reflexivity
            | intros H; first [discriminate H | discriminate]]).
Qed.

(** X7.  On every host the font size is the base size plus 4 when the
    single-board-computer signal fired or a touchscreen was found on a
    small screen, plus 2 on a small screen otherwise, and the base size on
    a large screen of another machine; it never falls below the base size
    nor exceeds it by more than 4. *)
Theorem font_size_by_signals (h : Host) :
  exists d,
    init h = Returned d /\
    forall base_size : Z,
      AdaptiveHamsterGUI.get_font_size d base_size =
        base_size +
        (if sbc_signal h
            || (touch_signal h && is_small_screen (screen_info d))
         then 4
         else if is_small_screen (screen_info d) then 2 else 0) /\
      base_size <= AdaptiveHamsterGUI.get_font_size d base_size
      <= base_size + 4.
Proof.
  eexists. split; [apply init_closed|].
  intros base_size. unfold AdaptiveHamsterGUI.get_font_size.
  cbn [screen_info is_touch_optimized is_small_screen].
  destruct (sbc_signal h), (touch_signal h),
    ((fst (display_size h) <=? 800) || (snd (display_size h) <=? 480));
    cbn; lia.
Qed.

(** X8.  The scan of the display-server text is decided by the first line
    that holds [ connected ]: the lines before it are passed over, and
    nothing after it is ever looked at. *)
Theorem scan_stops_at_first_connected (before after : list string)
  (line : string) (info : ScreenInfo) :
  (forall l, In l before -> is_connected l = false) ->
  is_connected line = true ->
  scan_lines (before ++ line :: after) info
  = scan_parts (PyStr.split_ws line) info.
Proof.
  intros Hbefore Hline.
  rewrite scan_lines_closed.
  assert (Hfind : find is_connected (before ++ line :: after) = Some line).
  { induction before as [|l before IH]; simpl.
    - rewrite Hline. reflexivity.
    - rewrite (Hbefore l (or_introl eq_refl)).
      apply IH. intros l' Hin. apply Hbefore. right. exact Hin. }
  rewrite Hfind. reflexivity.
Qed.

Lemma scan_stops_at_first_connected_witness :
  scan_lines
    (["Screen 0: minimum 320 x 200"]
     ++ "eDP-1 connected (normal left inverted right x axis y axis)"
     :: ["HDMI-1 connected primary 1920x1080+0+0 (normal left) 527mm x 296mm"])
    info_init
  = scan_parts
      (PyStr.split_ws
         "eDP-1 connected (normal left inverted right x axis y axis)")
      info_init.
Proof.
  apply scan_stops_at_first_connected.
  - intros l [<-|[]]. vm_compute. reflexivity.
  - vm_compute. reflexivity.
Defined.

(** X10.  What the toolkit stage stored before it raised is kept: when the
    display server cannot be run, the toolkit window is made and reports
    its width, and asking its height raises, the detected size is that
    width with the default height 768. *)
Theorem toolkit_width_survives_raise (h : Host) (env : Environment)
  (methods : InputMethods) (root : TkRoot) (w : Z) (e1 e2 : exn) :
  xrandr h = Raised e1 ->
  tk_Tk h = Returned root ->
  winfo_screenwidth root = Returned w ->
  winfo_screenheight root = Raised e2 ->
  exists info,
    detect_screen_info h env methods = Returned info /\
    width info = w /\ height info = 768.
Proof.
  intros Hx Hroot Hw Hh.
  eexists. split; [apply detect_screen_info_closed|].
  cbn [width height]. unfold display_size, toolkit_size.
  rewrite Hx, Hroot, Hw, Hh. split; reflexivity.
Qed.

Lemma toolkit_width_survives_raise_witness :
  exists info,
    detect_screen_info half_tk_host env_init methods_init = Returned info /\
    width info = 1280 /\ height info = 768.
Proof.
  apply (toolkit_width_survives_raise half_tk_host env_init methods_init
           {| winfo_screenwidth := Returned 1280;
              winfo_screenheight := Raised TclError |}
           1280 FileNotFoundError TclError); reflexivity.
Defined.

(* ===================================================================== *)
(** ** Reading back the sizes the display server prints *)
(* ===================================================================== *)

Section DecimalFacts.

Lemma string_app_assoc (a b c : string) :
  ((a ++ b) ++ c = a ++ b ++ c)%string.
Proof.
  induction a as [|x a IH]; [reflexivity|].
  cbn [String.append]. rewrite IH. reflexivity.
Qed.

Lemma all_chars_app (p : ascii -> bool) (a b : string) :
  all_chars p (a ++ b) = all_chars p a && all_chars p b.
Proof.
  induction a as [|c a IH]; [reflexivity|].
  cbn [String.append all_chars]. rewrite IH. apply andb_assoc.
Qed.

Lemma all_chars_impl (p q : ascii -> bool) (s : string) :
  (forall c, p c = true -> q c = true) ->
  all_chars p s = true -> all_chars q s = true.
Proof.
  intros Hpq. induction s as [|c s IH]; [reflexivity|].
  cbn [all_chars]. rewrite !andb_true_iff. intros [Hc Hs].
  split; [apply Hpq; exact Hc | apply IH; exact Hs].
Qed.

Lemma dec_char_not_space (c : ascii) :
  is_dec_char c = true -> not_space c = true.
Proof. destruct c as [[] [] [] [] [] [] [] []]; vm_compute; auto. Qed.

Lemma dec_char_not_x (c : ascii) :
  is_dec_char c = true -> is_not "x" c = true.
Proof. destruct c as [[] [] [] [] [] [] [] []]; vm_compute; auto. Qed.

Lemma dec_char_not_plus (c : ascii) :
  is_dec_char c = true -> is_not "+" c = true.
Proof. destruct c as [[] [] [] [] [] [] [] []]; vm_compute; auto. Qed.

Lemma uint_dec_chars (u : Decimal.uint) :
  all_chars is_dec_char (NilEmpty.string_of_uint u) = true.
Proof. induction u; cbn [NilEmpty.string_of_uint all_chars]; auto. Qed.

Lemma str_of_Z_dec_chars (z : Z) : all_chars is_dec_char (str_of_Z z) = true.
Proof.
  unfold str_of_Z, NilZero.string_of_int, NilZero.string_of_uint.
  destruct z as [|p|p]; cbn [Z.to_int].
  - reflexivity.
  - destruct (Pos.to_uint p) eqn:E; try apply uint_dec_chars. reflexivity.
  - destruct (Pos.to_uint p) eqn:E; cbn [all_chars];
      try (rewrite uint_dec_chars; reflexivity). reflexivity.
Qed.

(** A text without white space is its own [strip()]. *)
Lemma lstrip_no_space (s : string) :
  all_chars not_space s = true -> PyStr.lstrip s = s.
Proof.
  destruct s as [|c s]; [reflexivity|].
  cbn [all_chars PyStr.lstrip]. unfold not_space.
  destruct (PyStr.isspace c); [discriminate | reflexivity].
Qed.

Lemma rstrip_no_space (s : string) :
  all_chars not_space s = true -> PyStr.rstrip s = s.
Proof.
  induction s as [|c s IH]; [reflexivity|].
  cbn [all_chars PyStr.rstrip]. unfold not_space at 1.
  rewrite andb_true_iff. intros [Hc Hs]. rewrite (IH Hs).
  destruct s; [|reflexivity].
  destruct (PyStr.isspace c); [discriminate | reflexivity].
Qed.

Lemma strip_no_space (s : string) :
  all_chars not_space s = true -> PyStr.strip s = s.
Proof.
  intros H. unfold PyStr.strip.
  rewrite (lstrip_no_space s H). apply rstrip_no_space. exact H.
Qed.

(** A text without the separator is one piece; the first separator ends
    the first piece. *)
Lemma split_no_sep (sep : ascii) (s : string) :
  all_chars (is_not sep) s = true -> PyStr.split sep s = [s].
Proof.
  induction s as [|c s IH]; [reflexivity|].
  cbn [all_chars PyStr.split]. unfold is_not at 1.
  rewrite andb_true_iff. intros [Hc Hs].
  destruct (Ascii.eqb c sep); [discriminate|].
  rewrite (IH Hs). reflexivity.
Qed.

Lemma split_at_first_sep (sep : ascii) (a b : string) :
  all_chars (is_not sep) a = true ->
  PyStr.split sep (a ++ String sep b) = a :: PyStr.split sep b.
Proof.
  induction a as [|c a IH].
  - intros _. cbn [String.append PyStr.split].
    rewrite Ascii.eqb_refl. reflexivity.
  - cbn [all_chars String.append PyStr.split]. unfold is_not at 1.
    rewrite andb_true_iff. intros [Hc Ha].
    destruct (Ascii.eqb c sep); [discriminate|].
    rewrite (IH Ha). reflexivity.
Qed.

(** The digits of a decimal numeral are read back as its value. *)
Lemma int_digits_acc (u : Decimal.uint) (acc : positive) :
  PyStr.int_digits (NilEmpty.string_of_uint u) (Z.pos acc) true
  = Some (Z.pos (Pos.of_uint_acc u acc)).
Proof.
  revert acc.
  induction u; intros acc;
    cbn [NilEmpty.string_of_uint PyStr.int_digits Pos.of_uint_acc];
    [reflexivity | ..];
    match goal with
    | |- context [PyStr.digit_of ?c] =>
        let d := eval vm_compute in (PyStr.digit_of c) in
        change (PyStr.digit_of c) with d
    end;
    cbv iota;
    match goal with
    | |- PyStr.int_digits _ ?a true = Some (Z.pos (Pos.of_uint_acc _ ?b)) =>
        replace a with (Z.pos b) by lia
    end;
    apply IHu.
Qed.

Lemma int_digits_zero (u : Decimal.uint) :
  PyStr.int_digits (NilEmpty.string_of_uint u) 0 true
  = Some (Z.of_N (Pos.of_uint u)).
Proof.
  induction u;
    cbn [NilEmpty.string_of_uint PyStr.int_digits Pos.of_uint];
    [reflexivity | ..];
    match goal with
    | |- context [PyStr.digit_of ?c] =>
        let d := eval vm_compute in (PyStr.digit_of c) in
        change (PyStr.digit_of c) with d
    end;
    cbv iota; cbn [Z.mul Z.add Z.of_nat Pos.of_succ_nat Pos.succ Z.of_N];
    first [exact IHu | apply int_digits_acc].
Qed.

Lemma int_digits_start (u : Decimal.uint) :
  u <> Decimal.Nil ->
  PyStr.int_digits (NilEmpty.string_of_uint u) 0 false
  = PyStr.int_digits (NilEmpty.string_of_uint u) 0 true.
Proof.
  destruct u; intros H; [contradiction H; reflexivity | ..];
    cbn [NilEmpty.string_of_uint PyStr.int_digits];
    match goal with
    | |- context [PyStr.digit_of ?c] =>
        let d := eval vm_compute in (PyStr.digit_of c) in
        change (PyStr.digit_of c) with d
    end;
    reflexivity.
Qed.

(** The numeral of a positive number does not start with a sign. *)
Lemma int_of_uint (u : Decimal.uint) :
  u <> Decimal.Nil ->
  PyStr.int (NilEmpty.string_of_uint u) = Some (Z.of_N (Pos.of_uint u)).
Proof.
  intros Hu. unfold PyStr.int.
  rewrite strip_no_space
    by (apply (all_chars_impl is_dec_char); [exact dec_char_not_space|];
        apply uint_dec_chars).
  rewrite <- int_digits_zero, <- (int_digits_start u Hu).
  destruct u; [contradiction Hu; reflexivity | ..]; reflexivity.
Qed.

(** [int(str(n)) == n] for every integer. *)
Lemma int_str_of_Z (z : Z) : PyStr.int (str_of_Z z) = Some z.
Proof.
  unfold str_of_Z, NilZero.string_of_int, NilZero.string_of_uint.
  destruct z as [|p|p]; cbn [Z.to_int].
  - reflexivity.
  - pose proof (Unsigned.to_uint_nonnil p) as Hnn.
    pose proof (Unsigned.of_to p) as Hof.
    destruct (Pos.to_uint p) eqn:E; [contradiction Hnn; reflexivity | ..];
      rewrite int_of_uint by discriminate; rewrite Hof; reflexivity.
  - pose proof (Unsigned.to_uint_nonnil p) as Hnn.
    pose proof (Unsigned.of_to p) as Hof.
    assert (Hneg : forall u, u <> Decimal.Nil ->
              PyStr.int (String "-" (NilEmpty.string_of_uint u))
              = Some (- Z.of_N (Pos.of_uint u))).
    { intros u Hu. unfold PyStr.int.
      rewrite strip_no_space.
      - rewrite (int_digits_start u Hu), int_digits_zero. reflexivity.
      - cbn [all_chars]. apply (all_chars_impl is_dec_char);
          [exact dec_char_not_space | apply uint_dec_chars]. }
    destruct (Pos.to_uint p) eqn:E; [contradiction Hnn; reflexivity | ..];
      rewrite Hneg by discriminate; rewrite Hof; reflexivity.
Qed.

End DecimalFacts.

(** X9.  Every size the display server prints is read back: for all
    integers [w] and [h], a word made of their decimal numerals joined by
    [x] and followed by [+] and anything else is parsed to exactly
    [(w, h)], provided no earlier word of the line holds a [+] (as the
    output name, [connected] and [primary] do not). *)
Theorem geometry_word_read_back (w h : Z) (rest : string)
  (earlier : list string) (info : ScreenInfo) :
  (forall word, In word earlier -> PyStr.contains "+" word = false) ->
  scan_parts
    (earlier ++ [(str_of_Z w ++ "x" ++ str_of_Z h ++ "+" ++ rest)%string])
    info
  = (Returned tt, set_height h (set_width w info)).
Proof.
  intros Hearlier.
  set (part := (str_of_Z w ++ "x" ++ str_of_Z h ++ "+" ++ rest)%string).
  assert (Hsize : all_chars (is_not "+")
                    (str_of_Z w ++ "x" ++ str_of_Z h) = true).
  { rewrite !all_chars_app. cbn [all_chars].
    rewrite !(all_chars_impl is_dec_char (is_not "+") _ dec_char_not_plus)
      by apply str_of_Z_dec_chars.
    reflexivity. }
  assert (Hbefore : before_plus part
                    = (str_of_Z w ++ "x" ++ str_of_Z h)%string).
  { unfold before_plus, part.
    replace (str_of_Z w ++ "x" ++ str_of_Z h ++ "+" ++ rest)%string
      with ((str_of_Z w ++ "x" ++ str_of_Z h) ++ String "+" rest)%string.
    - rewrite (split_at_first_sep "+" _ rest Hsize). reflexivity.
    - rewrite !string_app_assoc. reflexivity. }
  assert (Hgeo : is_geometry part = true).
  { unfold is_geometry. rewrite Hbefore.
    rewrite !andb_true_iff. repeat split; apply contains_occurs.
    - exists (str_of_Z w), (str_of_Z h ++ "+" ++ rest)%string. reflexivity.
    - exists (str_of_Z w ++ "x" ++ str_of_Z h)%string, rest.
      unfold part. rewrite !string_app_assoc. reflexivity.
    - exists (str_of_Z w), (str_of_Z h).
      reflexivity. }
  assert (Hunpack : unpack_resolution (before_plus part) = Returned (w, h)).
  { rewrite Hbefore. unfold unpack_resolution.
    change (str_of_Z w ++ "x" ++ str_of_Z h)%string
      with (str_of_Z w ++ String "x" (str_of_Z h))%string.
    rewrite split_at_first_sep
      by (apply (all_chars_impl is_dec_char); [exact dec_char_not_x|];
          apply str_of_Z_dec_chars).
    rewrite split_no_sep
      by (apply (all_chars_impl is_dec_char); [exact dec_char_not_x|];
          apply str_of_Z_dec_chars).
    cbn [map]. rewrite !int_str_of_Z. reflexivity. }
  rewrite scan_parts_closed.
  assert (Hfind : find is_geometry (earlier ++ [part]) = Some part).
  { induction earlier as [|word earlier IH]; simpl.
    - rewrite Hgeo. reflexivity.
    - unfold is_geometry at 1.
      rewrite (Hearlier word (or_introl eq_refl)).
      rewrite andb_false_r. cbn [andb].
      apply IH. intros word' Hin. apply Hearlier. right. exact Hin. }
  rewrite Hfind, Hunpack. reflexivity.
Qed.

Lemma geometry_word_read_back_witness :
  scan_parts
    (["HDMI-1"; "connected"; "primary"]
     ++ [(str_of_Z 1920 ++ "x" ++ str_of_Z 1080 ++ "+" ++ "0+0")%string])
    info_init
  = (Returned tt, set_height 1080 (set_width 1920 info_init)).
Proof.
  apply geometry_word_read_back.
  intros word [<-|[<-|[<-|[]]]]; vm_compute; reflexivity.
Defined.

(* ===================================================================== *)
(** ** Preferences: failures, odd files, and the settings form *)
(* ===================================================================== *)

Section MorePreferenceFacts.

Import AdaptiveHamsterGUI.

Lemma load_config_default_has_sections :
  PyDict.has "station" default_config = true /\
  PyDict.has "ui" default_config = true.
Proof. split; reflexivity. Qed.



Lemma merge_defaults_scalar (v : pyval) (fs : ConfigFS) :
  is_scalar v = true ->
  merge_defaults default_config v fs = (Raised TypeError, fs).
Proof. destruct v; intros H; try discriminate H; reflexivity. Qed.

Lemma set_set (key : string) (a b : pyval) (d : PyDict.dict) :
  PyDict.set key a (PyDict.set key b d) = PyDict.set key a d.
Proof.
  induction d as [|[k v] rest IH]; cbn [PyDict.set].
  - rewrite String.eqb_refl. reflexivity.
  - destruct (String.eqb k key) eqn:E; cbn [PyDict.set]; rewrite E.
    + reflexivity.
    + rewrite IH. reflexivity.
Qed.

(** Storing the entries of the form, on a configuration whose station
    section is a dictionary. *)
Lemma store_entries_dict (entries : list (string * string))
  (d station : PyDict.dict) :
  PyDict.get "station" d = Some (PDict station) ->
  AdaptiveSettingsWindow.store_entries entries (PDict d)
  = (None, PDict (PyDict.set "station" (PDict (set_all entries station)) d))
    \/ entries = [] /\
       AdaptiveSettingsWindow.store_entries entries (PDict d) = (None, PDict d).
Proof.
  revert d station. induction entries as [|[key value] rest IH];
    intros d station Hst.
  - right. split; reflexivity.
  - left. cbn [AdaptiveSettingsWindow.store_entries].
    unfold AdaptiveSettingsWindow.getitem. rewrite Hst.
    cbn [py_setitem].
    destruct (IH (PyDict.set "station"
                    (PDict (PyDict.set key (PStr value) station)) d)
                 (PyDict.set key (PStr value) station)
                 (get_set_same _ _ _)) as [H|[-> H]].
    + rewrite H, set_set. reflexivity.
    + rewrite H. reflexivity.
Qed.

End MorePreferenceFacts.

(** X11.  Whatever goes wrong with the preference file, [load_config]
    answers with the defaults and leaves the file as it found it: when the
    directory cannot be made, when the file cannot be read or is not valid
    JSON (it is not overwritten), when the file is missing and cannot be
    written (it stays missing), and when the file holds a number, a
    boolean or [null]. *)
Theorem load_config_falls_back_to_defaults :
  (forall (fs : AdaptiveHamsterGUI.ConfigFS) (e : exn),
     AdaptiveHamsterGUI.makedirs fs = Raised e ->
     AdaptiveHamsterGUI.load_config fs
     = (Returned (PDict AdaptiveHamsterGUI.default_config), fs)) /\
  (forall (fs : AdaptiveHamsterGUI.ConfigFS) (e : exn),
     AdaptiveHamsterGUI.makedirs fs = Returned tt ->
     AdaptiveHamsterGUI.config_file fs = Some (Raised e) ->
     AdaptiveHamsterGUI.load_config fs
     = (Returned (PDict AdaptiveHamsterGUI.default_config), fs)) /\
  (forall (fs : AdaptiveHamsterGUI.ConfigFS) (e : exn),
     AdaptiveHamsterGUI.makedirs fs = Returned tt ->
     AdaptiveHamsterGUI.config_file fs = None ->
     AdaptiveHamsterGUI.open_for_writing fs = Raised e ->
     AdaptiveHamsterGUI.load_config fs
     = (Returned (PDict AdaptiveHamsterGUI.default_config), fs)) /\
  (forall (fs : AdaptiveHamsterGUI.ConfigFS) (v : pyval),
     AdaptiveHamsterGUI.makedirs fs = Returned tt ->
     AdaptiveHamsterGUI.config_file fs = Some (Returned v) ->
     is_scalar v = true ->
     AdaptiveHamsterGUI.load_config fs
     = (Returned (PDict AdaptiveHamsterGUI.default_config), fs)).
Proof.
  split; [|split; [|split]].
  - intros fs e Hdir.
    unfold AdaptiveHamsterGUI.load_config, try_except, Py.bind, get, eval, ret.
    rewrite Hdir. reflexivity.
  - intros fs e Hdir Hfile.
    unfold AdaptiveHamsterGUI.load_config, try_except, Py.bind, get, eval, ret.
    rewrite Hdir, Hfile. reflexivity.
  - intros fs e Hdir Hfile Hw.
    unfold AdaptiveHamsterGUI.load_config, AdaptiveHamsterGUI.dump,
      try_except, Py.bind, get, eval, ret.
    rewrite Hdir, Hfile, Hw. reflexivity.
  - intros fs v Hdir Hfile Hv.
    unfold AdaptiveHamsterGUI.load_config, try_except, Py.bind, get, eval, ret.
    rewrite Hdir, Hfile, (merge_defaults_scalar v fs Hv). reflexivity.
Qed.

Lemma load_config_falls_back_to_defaults_witness :
  AdaptiveHamsterGUI.load_config fs_corrupt
  = (Returned (PDict AdaptiveHamsterGUI.default_config), fs_corrupt).
Proof.
  apply (proj1 (proj2 load_config_falls_back_to_defaults)
           fs_corrupt JSONDecodeError); reflexivity.
Defined.



Section StationFormFacts.

Import AdaptiveHamsterGUI AdaptiveSettingsWindow.

(** The four entries end up under their keys; nothing else in the station
    dictionary changes. *)
Lemma set_all_station_entries (c g q o : string) (station : PyDict.dict) :
  let station' := set_all (station_entries c g q o) station in
  PyDict.get "callsign" station' = Some (PStr c) /\
  PyDict.get "grid_square" station' = Some (PStr g) /\
  PyDict.get "qth" station' = Some (PStr q) /\
  PyDict.get "operator" station' = Some (PStr o) /\
  (forall key,
     key <> "callsign" -> key <> "grid_square" ->
     key <> "qth" -> key <> "operator" ->
     PyDict.get key station' = PyDict.get key station).
Proof.
  unfold set_all, station_entries. cbn [fold_left fst snd].
  repeat split.
  - rewrite !get_set_other by discriminate. apply get_set_same.
  - rewrite !get_set_other by discriminate. apply get_set_same.
  - rewrite !get_set_other by discriminate. apply get_set_same.
  - apply get_set_same.
  - intros key H1 H2 H3 H4.
    rewrite !get_set_other by (intros E; symmetry in E; contradiction).
    reflexivity.
Qed.

Lemma store_station_entries (c g q o : string) (d station : PyDict.dict) :
  PyDict.get "station" d = Some (PDict station) ->
  store_entries (station_entries c g q o) (PDict d)
  = (None,
     PDict (PyDict.set "station"
              (PDict (set_all (station_entries c g q o) station)) d)).
Proof.
  intros Hst.
  destruct (store_entries_dict (station_entries c g q o) d station Hst)
    as [H|[H _]]; [exact H | discriminate H].
Qed.

End StationFormFacts.

(** X13.  Saving the station form and starting again gives back what was
    typed.  On a configuration whose station section is a dictionary and
    which has a [ui] section, with a writable preference file,
    [save_station_settings] does not raise; afterwards the four station
    fields hold the four entries, every other station field and every
    other section is as before, the file holds the new configuration, and
    [load_config] on that file returns exactly this configuration. *)
Theorem station_settings_round_trip
  (app : AdaptiveSettingsWindow.App) (d station : PyDict.dict)
  (callsign grid_square qth operator : string) :
  AdaptiveSettingsWindow.config app = PDict d ->
  PyDict.get "station" d = Some (PDict station) ->
  PyDict.has "ui" d = true ->
  AdaptiveHamsterGUI.makedirs (AdaptiveSettingsWindow.fs app) = Returned tt ->
  AdaptiveHamsterGUI.open_for_writing (AdaptiveSettingsWindow.fs app)
  = Returned tt ->
  exists app' d' station',
    AdaptiveSettingsWindow.save_station_settings
      (AdaptiveSettingsWindow.station_entries callsign grid_square qth operator)
      app = (None, app') /\
    AdaptiveSettingsWindow.config app' = PDict d' /\
    PyDict.get "station" d' = Some (PDict station') /\
    PyDict.get "callsign" station' = Some (PStr callsign) /\
    PyDict.get "grid_square" station' = Some (PStr grid_square) /\
    PyDict.get "qth" station' = Some (PStr qth) /\
    PyDict.get "operator" station' = Some (PStr operator) /\
    (forall key,
       key <> "callsign" -> key <> "grid_square" ->
       key <> "qth" -> key <> "operator" ->
       PyDict.get key station' = PyDict.get key station) /\
    (forall key, key <> "station" -> PyDict.get key d' = PyDict.get key d) /\
    AdaptiveHamsterGUI.config_file (AdaptiveSettingsWindow.fs app')
    = Some (Returned (PDict d')) /\
    AdaptiveHamsterGUI.load_config (AdaptiveSettingsWindow.fs app')
    = (Returned (PDict d'), AdaptiveSettingsWindow.fs app').
Proof.
  intros Hconfig Hst Hui Hdir Hw.
  set (station' := set_all (AdaptiveSettingsWindow.station_entries
                              callsign grid_square qth operator) station).
  set (d' := PyDict.set "station" (PDict station') d).
  destruct (set_all_station_entries callsign grid_square qth operator station)
    as (H1 & H2 & H3 & H4 & Hother).
  eexists. exists d', station'.
  split.
  - unfold AdaptiveSettingsWindow.save_station_settings.
    rewrite Hconfig, (store_station_entries _ _ _ _ d station Hst).
    reflexivity.
  - cbn [AdaptiveSettingsWindow.config AdaptiveSettingsWindow.fs].
    split; [reflexivity|].
    split; [apply get_set_same|].
    split; [exact H1|]. split; [exact H2|]. split; [exact H3|].
    split; [exact H4|]. split; [exact Hother|].
    split.
    { intros key Hkey. apply get_set_other.
      intros E. symmetry in E. contradiction. }
    unfold AdaptiveHamsterGUI.save_config, AdaptiveHamsterGUI.dump,
      try_except, Py.bind, get, eval, modify, pass, ret.
    rewrite Hw. cbn [snd].
    split; [reflexivity|].
    rewrite (load_config_dict _ d') by (try exact Hdir; reflexivity).
    rewrite merge_dict_complete; [reflexivity | |].
    + unfold PyDict.has, d'. rewrite get_set_same. reflexivity.
    + unfold PyDict.has, d'. rewrite get_set_other by discriminate.
      exact Hui.
Qed.

Lemma station_settings_round_trip_witness :
  exists app' d' station',
    AdaptiveSettingsWindow.save_station_settings
      (AdaptiveSettingsWindow.station_entries "W1AW" "FN31pr" "Newington" "Sam")
      app_station_only = (None, app') /\
    AdaptiveSettingsWindow.config app' = PDict d' /\
    PyDict.get "station" d' = Some (PDict station') /\
    PyDict.get "callsign" station' = Some (PStr "W1AW") /\
    AdaptiveHamsterGUI.load_config (AdaptiveSettingsWindow.fs app')
    = (Returned (PDict d'), AdaptiveSettingsWindow.fs app').
Proof.
  destruct (station_settings_round_trip app_station_only
              (merge_dict AdaptiveHamsterGUI.default_config station_only)
              [("callsign", PStr "K1ABC"); ("grid_square", PStr "FN31pr");
               ("qth", PStr "Hartford"); ("operator", PStr "Pat")]
              "W1AW" "FN31pr" "Newington" "Sam"
              eq_refl eq_refl eq_refl eq_refl eq_refl)
    as (app' & d' & station' & Hsave & Hc & Hs & Hcall & _ & _ & _ & _ & _
        & _ & Hload).
  exists app', d', station'. repeat split; assumption.
Defined.

(** X14.  When the preference file cannot be written, saving the station
    form still changes the configuration in memory and still shows
    [Station settings saved!], although the file is left as it was (so the
    next start loads the old values). *)
Theorem station_settings_unwritable
  (app : AdaptiveSettingsWindow.App) (d station : PyDict.dict)
  (callsign grid_square qth operator : string) (e : exn) :
  AdaptiveSettingsWindow.config app = PDict d ->
  PyDict.get "station" d = Some (PDict station) ->
  AdaptiveHamsterGUI.open_for_writing (AdaptiveSettingsWindow.fs app)
  = Raised e ->
  exists app' d' station',
    AdaptiveSettingsWindow.save_station_settings
      (AdaptiveSettingsWindow.station_entries callsign grid_square qth operator)
      app = (None, app') /\
    AdaptiveSettingsWindow.fs app' = AdaptiveSettingsWindow.fs app /\
    AdaptiveSettingsWindow.shown app'
    = AdaptiveSettingsWindow.shown app
      ++ [("Settings", "Station settings saved!")] /\
    AdaptiveSettingsWindow.config app' = PDict d' /\
    PyDict.get "station" d' = Some (PDict station') /\
    PyDict.get "callsign" station' = Some (PStr callsign).
Proof.
  intros Hconfig Hst Hw.
  destruct (set_all_station_entries callsign grid_square qth operator station)
    as (H1 & _).
  eexists. eexists. eexists.
  split.
  - unfold AdaptiveSettingsWindow.save_station_settings.
    rewrite Hconfig, (store_station_entries _ _ _ _ d station Hst).
    reflexivity.
  - cbn [AdaptiveSettingsWindow.config AdaptiveSettingsWindow.fs
         AdaptiveSettingsWindow.shown].
    unfold AdaptiveHamsterGUI.save_config, AdaptiveHamsterGUI.dump,
      try_except, Py.bind, get, eval, modify, pass, ret.
    rewrite Hw. cbn [snd].
    split; [reflexivity|]. split; [reflexivity|]. split; [reflexivity|].
    split; [apply get_set_same | exact H1].
Qed.

Lemma station_settings_unwritable_witness :
  exists app',
    AdaptiveSettingsWindow.save_station_settings
      (AdaptiveSettingsWindow.station_entries "W1AW" "FN31pr" "Newington" "Sam")
      app_read_only = (None, app') /\
    AdaptiveSettingsWindow.fs app' = AdaptiveSettingsWindow.fs app_read_only /\
    AdaptiveSettingsWindow.shown app'
    = [("Settings", "Station settings saved!")].
Proof.
  destruct (station_settings_unwritable app_read_only
              (merge_dict AdaptiveHamsterGUI.default_config station_only)
              [("callsign", PStr "K1ABC"); ("grid_square", PStr "FN31pr");
               ("qth", PStr "Hartford"); ("operator", PStr "Pat")]
              "W1AW" "FN31pr" "Newington" "Sam" PermissionError
              eq_refl eq_refl eq_refl)
    as (app' & d' & station' & Hsave & Hfs & Hshown & _).
  exists app'. repeat split; assumption.
Defined.

(* ===================================================================== *)
(** ** Launching programs *)
(* ===================================================================== *)

Section LaunchFacts.

Import AdaptiveUI.


End LaunchFacts.


(** X16.  Launching APRS Chatty X or QSSTV never raises and leaves what
    was shown before untouched.  When the process starts, one information
    dialog follows it; when starting it raises, exactly one error dialog
    naming the program is shown and no information dialog. *)
Theorem launch_shows_one_dialog (d : AdaptiveUI.Desktop)
  (log : list AdaptiveUI.event) :
  let aprs := ["bash";
               AdaptiveUI.script_path d "launch_aprs_chatty_x.sh"] in
  let qsstv := ["bash"; AdaptiveUI.script_path d "launch_qsstv.sh"] in
  ((AdaptiveUI.Popen d aprs = Returned tt /\
    AdaptiveUI.launch_aprs d log
    = (Returned tt,
       log ++ [AdaptiveUI.Spawned aprs;
               AdaptiveUI.showinfo "APRS Chatty X"
                 "Launching APRS Chatty X..."]))
   \/ exists e,
        AdaptiveUI.Popen d aprs = Raised e /\
        AdaptiveUI.launch_aprs d log
        = (Returned tt,
           log ++ [AdaptiveUI.showerror "Error"
                     ("Failed to launch APRS Chatty X: "
                      ++ AdaptiveUI.str_exn d e)])) /\
  ((AdaptiveUI.Popen d qsstv = Returned tt /\
    AdaptiveUI.launch_qsstv d log
    = (Returned tt,
       log ++ [AdaptiveUI.Spawned qsstv;
               AdaptiveUI.showinfo "QSSTV" "Launching QSSTV..."]))
   \/ exists e,
        AdaptiveUI.Popen d qsstv = Raised e /\
        AdaptiveUI.launch_qsstv d log
        = (Returned tt,
           log ++ [AdaptiveUI.showerror "Error"
                     ("Failed to launch QSSTV: "
                      ++ AdaptiveUI.str_exn d e)])).
Proof.
  cbv zeta.
  unfold AdaptiveUI.launch_aprs, AdaptiveUI.launch_qsstv,
    AdaptiveUI.try_show_error, AdaptiveUI.spawn, AdaptiveUI.emit,
    Py.bind, eval, modify.
  split.
  - destruct (AdaptiveUI.Popen d
                ["bash"; AdaptiveUI.script_path d "launch_aprs_chatty_x.sh"])
      as [[]|e].
    + left. split; [reflexivity|]. rewrite <- app_assoc. reflexivity.
    + right. exists e. split; reflexivity.
  - destruct (AdaptiveUI.Popen d
                ["bash"; AdaptiveUI.script_path d "launch_qsstv.sh"])
      as [[]|e].
    + left. split; [reflexivity|]. rewrite <- app_assoc. reflexivity.
    + right. exists e. split; reflexivity.
Qed.


(* ===================================================================== *)
(** ** From the poll to the screen *)
(* ===================================================================== *)

Section SnapshotFacts.

Import AdaptiveHamsterGUI.

(** The network step, in closed form. *)
Lemma check_network_closed (q : StatusHost) (p : Poll) :
  check_network q p
  = (Returned tt,
     set_status "ip" (pyval_of_ip (detected_ip q))
       (set_status "network" (PBool (truthy (detected_ip q))) p)).
Proof.
  unfold check_network, detected_ip, try_except, Py.bind, eval, modify, ret.
  destruct (hostname_I q) as [stdout|e]; [|reflexivity].
  destruct (PyStr.nonempty (PyStr.strip stdout)) eqn:Hne.
  - destruct (PyStr.split_ws (PyStr.strip stdout)) as [|a rest];
      reflexivity.
  - destruct (PyStr.split_ws (PyStr.strip stdout)); reflexivity.
Qed.

(** A cycle in which no service query and no executable query raises. *)
Lemma poll_closed (q : StatusHost) (o1 o2 : string) (r1 r2 : Z) :
  systemctl_is_active q "ssh" = Returned o1 ->
  systemctl_is_active q "bluetooth" = Returned o2 ->
  which q "direwolf" = Returned r1 ->
  which q "qsstv" = Returned r2 ->
  let snap :=
    [("ssh", PBool (String.eqb (PyStr.strip o1) "active"));
     ("bluetooth", PBool (String.eqb (PyStr.strip o2) "active"));
     ("network", PBool (truthy (detected_ip q)));
     ("ip", pyval_of_ip (detected_ip q));
     ("direwolf", PBool (r1 =? 0));
     ("qsstv", PBool (r2 =? 0))] in
  check_system_status q
  = {| status_info := snap; displayed := [snap]; printed := [] |}.
Proof.
  intros H1 H2 H3 H4.
  unfold check_system_status, update_status, try_print.
  cbn [check_services check_applications].
  unfold Py.bind at 1. unfold Py.bind at 1. unfold eval at 1. rewrite H1.
  unfold Py.bind at 1. unfold modify at 1.
  unfold Py.bind at 1. unfold eval at 1. rewrite H2.
  unfold Py.bind at 1. unfold modify at 1.
  unfold pass at 1, ret at 1.
  unfold Py.bind at 1. rewrite check_network_closed.
  unfold Py.bind, eval, modify, pass, ret. rewrite H3, H4.
  generalize (String.eqb (PyStr.strip o1) "active") as b1.
  generalize (String.eqb (PyStr.strip o2) "active") as b2.
  generalize (r1 =? 0) as b3. generalize (r2 =? 0) as b4.
  generalize (truthy (detected_ip q)) as b5.
  generalize (pyval_of_ip (detected_ip q)) as v.
  intros. reflexivity.
Qed.

(** Every word [split()] gives is non-empty. *)
Lemma split_ws_nonempty (s a : string) :
  In a (PyStr.split_ws s) -> PyStr.nonempty a = true.
Proof.
  unfold PyStr.split_ws. intros H. apply filter_In in H. apply H.
Qed.

Lemma detected_ip_truthy (q : StatusHost) (a : string) :
  detected_ip q = Some a -> PyStr.nonempty a = true.
Proof.
  unfold detected_ip.
  destruct (hostname_I q) as [stdout|e]; [|discriminate].
  destruct (PyStr.split_ws (PyStr.strip stdout)) as [|w rest] eqn:E;
    [discriminate|].
  destruct (PyStr.nonempty (PyStr.strip stdout)); [|discriminate].
  intros [= <-]. apply (split_ws_nonempty (PyStr.strip stdout)).
  rewrite E. left. reflexivity.
Qed.

End SnapshotFacts.

(** X17.  A poll cycle in which neither [systemctl] query nor [which]
    query raises publishes exactly one snapshot, which is also the final
    dictionary and holds six entries in this order: [ssh] and [bluetooth]
    (true exactly when the query printed [active], white space aside),
    [network] (true exactly when an address was found), [ip] (the first
    word [hostname -I] printed, [None] when it raised or printed only
    blanks), [direwolf] and [qsstv] (true exactly when [which] returned
    0).  Nothing is printed. *)
Theorem poll_snapshot_entries (q : AdaptiveHamsterGUI.StatusHost)
  (o1 o2 : string) (r1 r2 : Z) :
  AdaptiveHamsterGUI.systemctl_is_active q "ssh" = Returned o1 ->
  AdaptiveHamsterGUI.systemctl_is_active q "bluetooth" = Returned o2 ->
  AdaptiveHamsterGUI.which q "direwolf" = Returned r1 ->
  AdaptiveHamsterGUI.which q "qsstv" = Returned r2 ->
  exists snap,
    AdaptiveHamsterGUI.check_system_status q
    = {| AdaptiveHamsterGUI.status_info := snap;
         AdaptiveHamsterGUI.displayed := [snap];
         AdaptiveHamsterGUI.printed := [] |} /\
    AdaptiveUI.snapshot_of snap
    = Some (typed_snapshot
              (String.eqb (PyStr.strip o1) "active")
              (String.eqb (PyStr.strip o2) "active")
              (detected_ip q) (r1 =? 0) (r2 =? 0)) /\
    (forall a, detected_ip q = Some a ->
               a <> EmptyString /\
               exists stdout rest,
                 AdaptiveHamsterGUI.hostname_I q = Returned stdout /\
                 PyStr.split_ws (PyStr.strip stdout) = a :: rest) /\
    (detected_ip q = None <->
     (exists e, AdaptiveHamsterGUI.hostname_I q = Raised e)
     \/ exists stdout,
          AdaptiveHamsterGUI.hostname_I q = Returned stdout /\
          PyStr.split_ws (PyStr.strip stdout) = []).
Proof.
  intros H1 H2 H3 H4.
  eexists. split; [apply (poll_closed q o1 o2 r1 r2 H1 H2 H3 H4)|].
  split; [|split].
  - unfold typed_snapshot.
    destruct (detected_ip q) as [a|]; reflexivity.
  - intros a Ha. split.
    + apply nonempty_true. apply (detected_ip_truthy q a Ha).
    + unfold detected_ip in Ha.
      destruct (AdaptiveHamsterGUI.hostname_I q) as [stdout|e];
        [|discriminate].
      destruct (PyStr.split_ws (PyStr.strip stdout)) as [|w rest] eqn:E;
        [discriminate|].
      destruct (PyStr.nonempty (PyStr.strip stdout)); [|discriminate].
      injection Ha as <-. exists stdout, rest.
      split; [reflexivity | exact E].
  - unfold detected_ip.
    destruct (AdaptiveHamsterGUI.hostname_I q) as [stdout|e].
    + destruct (PyStr.split_ws (PyStr.strip stdout)) as [|w rest] eqn:E.
      * split; [|reflexivity]. intros _. right. exists stdout.
        split; [reflexivity | exact E].
      * assert (Hne : PyStr.nonempty (PyStr.strip stdout) = true).
        { destruct (PyStr.strip stdout); [discriminate E | reflexivity]. }
        rewrite Hne. split; [discriminate|].
        intros [[e He]|[out [Hout Hnil]]]; [discriminate He|].
        injection Hout as <-. rewrite E in Hnil. discriminate Hnil.
    + split; [|reflexivity]. intros _. left. exists e. reflexivity.
Qed.

Lemma poll_snapshot_entries_witness :
  exists snap,
    AdaptiveHamsterGUI.check_system_status healthy_status_host
    = {| AdaptiveHamsterGUI.status_info := snap;
         AdaptiveHamsterGUI.displayed := [snap];
         AdaptiveHamsterGUI.printed := [] |} /\
    AdaptiveUI.snapshot_of snap
    = Some (typed_snapshot true true (Some "192.168.1.20") true true).
Proof.
  destruct (poll_snapshot_entries healthy_status_host
              ("active" ++ nl)%string ("active" ++ nl)%string 0 0
              eq_refl eq_refl eq_refl eq_refl)
    as (snap & Hrun & Htyped & _).
  exists snap. split; [exact Hrun | exact Htyped].
Defined.

(** X18.  In the desktop and minimal layouts a published snapshot reaches
    every one of the five labels: [ssh], [bluetooth], [direwolf] and
    [qsstv] read [Active] in the success colour or [Inactive] in the error
    colour according to their flags; [network] reads [Connected (...)]
    with the first 15 characters of the address when one was found, and
    [Inactive] otherwise; no label is left at its initial text, [ip] gets
    no label, and no update raises.  The desktop layout also gets its
    system-info text; neither layout has a status line. *)
Theorem labels_after_snapshot (window_mode : Mode.t)
  (detector : Detector) (uname_r : outcome string)
  (ssh bluetooth : bool) (ip : option string) (direwolf qsstv : bool) :
  window_mode = Mode.desktop \/ window_mode = Mode.minimal ->
  exists w,
    AdaptiveUI.update_status_display window_mode detector uname_r
      (typed_snapshot ssh bluetooth ip direwolf qsstv)
      (AdaptiveUI.create_widgets window_mode)
    = (Returned tt, w) /\
    AdaptiveUI.status_labels w
    = Some [("ssh", flag_label window_mode ssh);
            ("bluetooth", flag_label window_mode bluetooth);
            ("network",
             if truthy ip then
               {| AdaptiveUI.text :=
                    ("Connected ("
                     ++ String.substring 0 15
                          (match ip with Some a => a | None => EmptyString end)
                     ++ "...)")%string;
                  AdaptiveUI.fg :=
                    AdaptiveUI.get_theme_color window_mode "success" |}
             else flag_label window_mode false);
            ("direwolf", flag_label window_mode direwolf);
            ("qsstv", flag_label window_mode qsstv)] /\
    AdaptiveUI.status_text w = None /\
    AdaptiveUI.info_text_widget w
    = match window_mode with
      | Mode.desktop => Some (AdaptiveUI.system_info_text detector uname_r)
      | _ => None
      end.
Proof.
  intros [-> | ->];
    destruct ssh, bluetooth, direwolf, qsstv, ip as [[|c a]|];
    (eexists; split; [reflexivity|]);
    repeat split.
Qed.

Lemma labels_after_snapshot_witness :
  exists w,
    AdaptiveUI.update_status_display Mode.minimal default_detector
      (Raised FileNotFoundError)
      (typed_snapshot true false (Some "192.168.1.20") false true)
      (AdaptiveUI.create_widgets Mode.minimal)
    = (Returned tt, w) /\
    AdaptiveUI.labels_get "network"
      (match AdaptiveUI.status_labels w with Some l => l | None => [] end)
    = Some {| AdaptiveUI.text := "Connected (192.168.1.20...)";
              AdaptiveUI.fg := "#28a745" |}.
Proof.
  destruct (labels_after_snapshot Mode.minimal default_detector
              (Raised FileNotFoundError)
              true false (Some "192.168.1.20") false true
              (or_intror eq_refl))
    as (w & Hrun & Hlabels & _).
  exists w. split; [exact Hrun|]. rewrite Hlabels. reflexivity.
Defined.

(** X19.  In the touch layouts (window modes [touchscreen] and
    [fullscreen_console]) a published snapshot becomes one status line:
    [Active: ] followed by the names of the services whose flag is set, in
    the order ssh, bluetooth, network, direwolf, qsstv, separated by
    commas, and followed by [ | IP: ] and the address when one was found.
    The key [ip] is never listed as a service.  There are no labels and no
    system-info text in these layouts. *)
Theorem status_line_after_snapshot (window_mode : Mode.t)
  (detector : Detector) (uname_r : outcome string)
  (ssh bluetooth : bool) (ip : option string) (direwolf qsstv : bool) :
  window_mode = Mode.touchscreen \/ window_mode = Mode.fullscreen_console ->
  exists w,
    AdaptiveUI.update_status_display window_mode detector uname_r
      (typed_snapshot ssh bluetooth ip direwolf qsstv)
      (AdaptiveUI.create_widgets window_mode)
    = (Returned tt, w) /\
    AdaptiveUI.status_labels w = None /\
    AdaptiveUI.info_text_widget w = None /\
    AdaptiveUI.status_text w
    = Some ("Active: "
            ++ String.concat ", "
                 (listed ssh "ssh" ++ listed bluetooth "bluetooth"
                  ++ listed (truthy ip) "network"
                  ++ listed direwolf "direwolf" ++ listed qsstv "qsstv")
            ++ (if truthy ip
                then " | IP: "
                     ++ match ip with Some a => a | None => EmptyString end
                else EmptyString))%string.
Proof.
  intros [-> | ->];
    destruct ssh, bluetooth, direwolf, qsstv, ip as [[|c a]|];
    (eexists; split; [reflexivity|]);
    repeat split.
Qed.

Lemma status_line_after_snapshot_witness :
  exists w,
    AdaptiveUI.update_status_display Mode.touchscreen default_detector
      (Raised FileNotFoundError)
      (typed_snapshot true false (Some "192.168.1.20") false true)
      (AdaptiveUI.create_widgets Mode.touchscreen)
    = (Returned tt, w) /\
    AdaptiveUI.status_text w
    = Some "Active: ssh, network, qsstv | IP: 192.168.1.20".
Proof.
  destruct (status_line_after_snapshot Mode.touchscreen default_detector
              (Raised FileNotFoundError)
              true false (Some "192.168.1.20") false true
              (or_introl eq_refl))
    as (w & Hrun & _ & _ & Hline).
  exists w. split; [exact Hrun|]. rewrite Hline. reflexivity.
Defined.

(* ===================================================================== *)
(** ** The status poll of hamster-gui.py *)
(* ===================================================================== *)

(** X20.  A cycle of the poll of [hamster-gui.py] in which neither
    [systemctl] query nor [which] query raises gives every one of the six
    labels a definite text: [Active]/[Inactive] for ssh and bluetooth,
    [Connected (address)] with the first word [hostname -I] printed, or
    [Disconnected] when it raised or printed only blanks, [Detected]/[Not
    Found] for the controller, [Installed]/[Not Installed] for direwolf
    and qsstv; the info label shows the system information, or [System
    info unavailable] when gathering it raised; nothing is printed. *)
Theorem gui_poll_labels (q : HamsterGUI.StatusHost)
  (o1 o2 : string) (r1 r2 : Z) :
  HamsterGUI.systemctl_is_active q "ssh" = Returned o1 ->
  HamsterGUI.systemctl_is_active q "bluetooth" = Returned o2 ->
  HamsterGUI.which q "direwolf" = Returned r1 ->
  HamsterGUI.which q "qsstv" = Returned r2 ->
  HamsterGUI.check_system_status q
  = {| HamsterGUI.status_labels :=
         [("ssh", if String.eqb (PyStr.strip o1) "active"
                  then "Active" else "Inactive");
          ("bluetooth", if String.eqb (PyStr.strip o2) "active"
                        then "Active" else "Inactive");
          ("network",
           match HamsterGUI.hostname_I q with
           | Returned stdout =>
               match PyStr.split_ws (PyStr.strip stdout) with
               | ip :: _ => ("Connected (" ++ ip ++ ")")%string
               | [] => "Disconnected"
               end
           | Raised _ => "Disconnected"
           end);
          ("controller", if HamsterGUI.dev_input_js0 q
                         then "Detected" else "Not Found");
          ("direwolf", if r1 =? 0 then "Installed" else "Not Installed");
          ("qsstv", if r2 =? 0 then "Installed" else "Not Installed")];
       HamsterGUI.info_label :=
         match HamsterGUI.system_info q with
         | Returned text => text
         | Raised _ => "System info unavailable"
         end;
       HamsterGUI.printed := [] |}.
Proof.
  intros H1 H2 H3 H4.
  unfold HamsterGUI.check_system_status, HamsterGUI.update_status,
    HamsterGUI.update_status_label, HamsterGUI.update_system_info,
    HamsterGUI.set_info_label, HamsterGUI.first,
    Py.bind, try_except, eval, modify.
  rewrite H1, H2, H3, H4.
  destruct (HamsterGUI.hostname_I q) as [stdout|e];
    [destruct (PyStr.split_ws (PyStr.strip stdout)) as [|ip rest]|];
    destruct (HamsterGUI.system_info q) as [text|e'];
    reflexivity.
Qed.

Lemma gui_poll_labels_witness :
  HamsterGUI.status_labels
    (HamsterGUI.check_system_status gui_idle_host)
  = [("ssh", "Active"); ("bluetooth", "Active");
     ("network", "Disconnected"); ("controller", "Not Found");
     ("direwolf", "Not Installed"); ("qsstv", "Not Installed")].
Proof.
  rewrite (gui_poll_labels gui_idle_host "active" "active" 1 1
             eq_refl eq_refl eq_refl eq_refl).
  reflexivity.
Defined.

(** X21.  The poll of [hamster-gui.py] updates its labels one by one, so a
    query that raises leaves the earlier labels updated and all later ones
    at [Checking...]: when the ssh query answers and the bluetooth query
    raises, only the ssh label has changed, the info label is untouched,
    and the error is printed once. *)
Theorem gui_poll_stops_midway (q : HamsterGUI.StatusHost)
  (o1 : string) (e : exn) :
  HamsterGUI.systemctl_is_active q "ssh" = Returned o1 ->
  HamsterGUI.systemctl_is_active q "bluetooth" = Raised e ->
  HamsterGUI.check_system_status q
  = {| HamsterGUI.status_labels :=
         [("ssh", if String.eqb (PyStr.strip o1) "active"
                  then "Active" else "Inactive");
          ("bluetooth", "Checking..."); ("network", "Checking...");
          ("controller", "Checking..."); ("direwolf", "Checking...");
          ("qsstv", "Checking...")];
       HamsterGUI.info_label := "Loading system information...";
       HamsterGUI.printed := [e] |}.
Proof.
  intros H1 H2.
  unfold HamsterGUI.check_system_status, HamsterGUI.update_status,
    HamsterGUI.update_status_label, Py.bind, eval, modify.
  rewrite H1, H2. reflexivity.
Qed.

Lemma gui_poll_stops_midway_witness :
  HamsterGUI.check_system_status gui_half_host
  = {| HamsterGUI.status_labels :=
         [("ssh", "Inactive");
          ("bluetooth", "Checking..."); ("network", "Checking...");
          ("controller", "Checking..."); ("direwolf", "Checking...");
          ("qsstv", "Checking...")];
       HamsterGUI.info_label := "Loading system information...";
       HamsterGUI.printed := [FileNotFoundError] |}.
Proof.
  rewrite (gui_poll_stops_midway gui_half_host ("inactive" ++ nl)%string
             FileNotFoundError eq_refl eq_refl).
  reflexivity.
Defined.

(* ===================================================================== *)
(** ** The adaptive poll publishes all or nothing *)
(* ===================================================================== *)

(** X22.  Every cycle of the adaptive poll ends in one of two ways.
    Either all four [systemctl] and [which] queries answered, and exactly
    one snapshot is published, holding the six keys ssh, bluetooth,
    network, ip, direwolf, qsstv, with nothing printed; or one of those
    four queries raised, and then no snapshot is published at all and that
    one error is printed.  A snapshot with fewer keys is never
    published. *)
Theorem poll_publishes_all_or_nothing (q : AdaptiveHamsterGUI.StatusHost) :
  (exists snap,
     AdaptiveHamsterGUI.check_system_status q
     = {| AdaptiveHamsterGUI.status_info := snap;
          AdaptiveHamsterGUI.displayed := [snap];
          AdaptiveHamsterGUI.printed := [] |} /\
     map fst snap
     = ["ssh"; "bluetooth"; "network"; "ip"; "direwolf"; "qsstv"] /\
     (exists o1 o2 r1 r2,
        AdaptiveHamsterGUI.systemctl_is_active q "ssh" = Returned o1 /\
        AdaptiveHamsterGUI.systemctl_is_active q "bluetooth" = Returned o2 /\
        AdaptiveHamsterGUI.which q "direwolf" = Returned r1 /\
        AdaptiveHamsterGUI.which q "qsstv" = Returned r2))
  \/ (exists recorded e,
        AdaptiveHamsterGUI.check_system_status q
        = {| AdaptiveHamsterGUI.status_info := recorded;
             AdaptiveHamsterGUI.displayed := [];
             AdaptiveHamsterGUI.printed := [e] |} /\
        (AdaptiveHamsterGUI.systemctl_is_active q "ssh" = Raised e \/
         AdaptiveHamsterGUI.systemctl_is_active q "bluetooth" = Raised e \/
         AdaptiveHamsterGUI.which q "direwolf" = Raised e \/
         AdaptiveHamsterGUI.which q "qsstv" = Raised e)).
Proof.
  destruct (AdaptiveHamsterGUI.systemctl_is_active q "ssh")
    as [o1|e] eqn:H1.
  2:{ right. exists [], e. split; [|left; reflexivity].
      apply poll_aborts_on_first_service. exact H1. }
  destruct (AdaptiveHamsterGUI.systemctl_is_active q "bluetooth")
    as [o2|e] eqn:H2.
  2:{ right. eexists. exists e. split; [|right; left; reflexivity].
      unfold AdaptiveHamsterGUI.check_system_status,
        AdaptiveHamsterGUI.update_status, AdaptiveHamsterGUI.try_print.
      cbn [AdaptiveHamsterGUI.check_services].
      unfold Py.bind, eval, modify. rewrite H1, H2. reflexivity. }
  destruct (AdaptiveHamsterGUI.which q "direwolf") as [r1|e] eqn:H3.
  2:{ right. eexists. exists e. split; [|right; right; left; reflexivity].
      unfold AdaptiveHamsterGUI.check_system_status,
        AdaptiveHamsterGUI.update_status, AdaptiveHamsterGUI.try_print.
      cbn [AdaptiveHamsterGUI.check_services
           AdaptiveHamsterGUI.check_applications].
      unfold Py.bind, eval, modify, pass, ret. rewrite H1, H2, H3.
      cbv beta iota. rewrite check_network_closed. reflexivity. }
  destruct (AdaptiveHamsterGUI.which q "qsstv") as [r2|e] eqn:H4.
  2:{ right. eexists. exists e. split; [|right; right; right; reflexivity].
      unfold AdaptiveHamsterGUI.check_system_status,
        AdaptiveHamsterGUI.update_status, AdaptiveHamsterGUI.try_print.
      cbn [AdaptiveHamsterGUI.check_services
           AdaptiveHamsterGUI.check_applications].
      unfold Py.bind, eval, modify, pass, ret. rewrite H1, H2, H3, H4.
      cbv beta iota. rewrite check_network_closed. reflexivity. }
  left. eexists.
  split; [apply (poll_closed q o1 o2 r1 r2 H1 H2 H3 H4)|].
  split; [reflexivity|].
  exists o1, o2, r1, r2. repeat split.
Qed.
